(** * selenium-cucumber-es6: the runtime helpers over a model of the WebDriver session

    The development embeds [src/runtime/helpers.js].  The helpers are a thin
    layer over a WebDriver client and a browser; both are external to the
    repository, so the file first fixes a small executable model of what the
    helpers see of them (strings, the live document, the driver's commands and
    its [wait] loop) and then transcribes every helper next to it. *)

From Stdlib Require Import ZArith List String Ascii Bool Lia.
From Stdlib Require Import DecimalString.
Import ListNotations.
Local Open Scope string_scope.
Local Open Scope Z_scope.

(** ** JavaScript values the helpers handle *)

Module Js.

(** The line feed the driver puts between a caller's message and its own. *)
Definition LF : string := String (ascii_of_nat 10) EmptyString.

(** A string is its sequence of code units; the model carries the code units
    below 256.  Among those, ECMAScript's WhiteSpace and LineTerminator
    productions are TAB, LF, VT, FF, CR, SP and NBSP. *)
Definition is_white_space (c : ascii) : bool :=
  let n := nat_of_ascii c in
  ((9 <=? n)%nat && (n <=? 13)%nat) || (n =? 32)%nat || (n =? 160)%nat.

Fixpoint rev_onto (s acc : string) : string :=
  match s with
  | EmptyString => acc
  | String c r => rev_onto r (String c acc)
  end.

Definition reverse (s : string) : string := rev_onto s EmptyString.

Fixpoint trimStart (s : string) : string :=
  match s with
  | EmptyString => EmptyString
  | String c r => if is_white_space c then trimStart r else s
  end.

Definition trimEnd (s : string) : string := reverse (trimStart (reverse s)).

(** [String.prototype.trim] *)
Definition trim (s : string) : string := trimEnd (trimStart s).

(** [String.prototype.startsWith] and [String.prototype.includes] *)
Fixpoint startsWith (s p : string) {struct p} : bool :=
  match p, s with
  | EmptyString, _ => true
  | String _ _, EmptyString => false
  | String a p', String b s' => Ascii.eqb a b && startsWith s' p'
  end.

Fixpoint includes (s sub : string) : bool :=
  startsWith s sub ||
  match s with
  | EmptyString => false
  | String _ s' => includes s' sub
  end.

(** Numbers: the helpers document their numeric parameters as integers, and
    the model keeps them in [Z]; an omitted argument is [undefined], written
    [None].  ToString of an integer is its decimal numeral. *)
Definition number_to_string (z : Z) : string :=
  NilZero.string_of_int (Z.to_int z).

Definition to_string (v : option Z) : string :=
  match v with
  | None => "undefined"
  | Some z => number_to_string z
  end.

(** ToBoolean on an optional number: [undefined] and [0] are falsy. *)
Definition truthy_number (v : option Z) : bool :=
  match v with
  | None => false
  | Some z => negb (z =? 0)
  end.

(** ToBoolean on an optional string: [undefined], [null] and [''] are falsy
    ([undefined] reaches the page as [null]; both are [None] here). *)
Definition truthy_string (v : option string) : bool :=
  match v with
  | None => false
  | Some s => negb (String.eqb s "")
  end.

(** [a || b] where [a] is an optional number and [b] a number. *)
Definition or_number (a : option Z) (b : Z) : Z :=
  match a with
  | Some z => if truthy_number a then z else b
  | None => b
  end.

(** [a === b] on values that are a string or [null]. *)
Definition strict_equals (a b : option string) : bool :=
  match a, b with
  | Some x, Some y => String.eqb x y
  | None, None => true
  | _, _ => false
  end.

End Js.

(** ** The document and the browser session *)

(** An element node, with what the helpers read of it and whether it is
    displayed (which a driver-level click would require).  [before_style] and
    [after_style] stand for [window.getComputedStyle(el, ':before')] and
    [(el, ':after')]: [None] when the call yields no style object, otherwise
    the value of the style's [content] property. *)
Record node := {
  node_id : nat;
  displayed : bool;
  textContent : string;
  innerText : string;
  attributes : list (string * string);
  before_style : option string;
  after_style : option string
}.

(** A document: its element nodes in document order, and whether the
    [document] object has a [textContent] property. *)
Record document := {
  nodes : list node;
  textContent_in_document : bool
}.

(** The functions the helpers inject into the page. *)
Inductive script :=
| ScriptFindElementsContainingText (query content : string)
| ScriptClickElementInDom (query : string) (content : option string)
| ScriptGetBeforeContentValue (qs : string)
| ScriptGetAfterContentValue (qs : string)
| ScriptSource (source : string).

Inductive locator :=
| ByCss (selector : string)
| ByJs (s : script).

Inductive condition :=
| UntilElementLocated (l : locator)
| UntilFunction.

(** The calls the helpers make on the global [driver]. *)
Inductive command :=
| CmdGet (url : string)
| CmdFindElement (l : locator)
| CmdFindElements (l : locator)
| CmdExecuteScript (s : script)
| CmdDeleteAllCookies
| CmdWait (c : condition) (timeout : Z) (message : option string).

(** What a click can change of a session: the document shown from then on
    (a link navigates), the cookies and the two storages. *)
Record content := {
  shown : Z -> document;
  jar : list (string * string);
  local_store : list (string * string);
  session_store : list (string * string)
}.

(** The session: the live document as a function of the clock (client-side
    code changes it as time passes), the clock in milliseconds, the cookie jar
    and the two storages, the nodes that received a click (oldest first),
    the driver calls made so far (oldest first), and what the site makes of
    a click on a node. *)
Record browser := {
  page : Z -> document;
  clock : Z;
  cookies : list (string * string);
  localStorage : list (string * string);
  sessionStorage : list (string * string);
  clicked : list node;
  log : list command;
  on_click : node -> content -> content
}.

Definition current_document (b : browser) : document := page b (clock b).

Definition set_page (p : Z -> document) (b : browser) : browser :=
  {| page := p; clock := clock b; cookies := cookies b;
     localStorage := localStorage b; sessionStorage := sessionStorage b;
     clicked := clicked b; log := log b; on_click := on_click b |}.

Definition set_clock (t : Z) (b : browser) : browser :=
  {| page := page b; clock := t; cookies := cookies b;
     localStorage := localStorage b; sessionStorage := sessionStorage b;
     clicked := clicked b; log := log b; on_click := on_click b |}.

Definition set_cookies (c : list (string * string)) (b : browser) : browser :=
  {| page := page b; clock := clock b; cookies := c;
     localStorage := localStorage b; sessionStorage := sessionStorage b;
     clicked := clicked b; log := log b; on_click := on_click b |}.

Definition set_storages (l s : list (string * string)) (b : browser) : browser :=
  {| page := page b; clock := clock b; cookies := cookies b;
     localStorage := l; sessionStorage := s;
     clicked := clicked b; log := log b; on_click := on_click b |}.

Definition set_clicked (c : list node) (b : browser) : browser :=
  {| page := page b; clock := clock b; cookies := cookies b;
     localStorage := localStorage b; sessionStorage := sessionStorage b;
     clicked := c; log := log b; on_click := on_click b |}.

Definition record_call (c : command) (b : browser) : browser :=
  {| page := page b; clock := clock b; cookies := cookies b;
     localStorage := localStorage b; sessionStorage := sessionStorage b;
     clicked := clicked b; log := log b ++ [c];
     on_click := on_click b |}.

Definition content_of (b : browser) : content :=
  {| shown := page b; jar := cookies b; local_store := localStorage b;
     session_store := sessionStorage b |}.

Definition set_content (c : content) (b : browser) : browser :=
  {| page := shown c; clock := clock b; cookies := jar c;
     localStorage := local_store c; sessionStorage := session_store c;
     clicked := clicked b; log := log b; on_click := on_click b |}.

(** The session after the site has acted on the clicks its nodes received,
    in the order they received them.  A navigation started by a click
    replaces the page once the running script has ended, so the script that
    clicks reads the document it started in. *)
Definition react (received : list node) (b : browser) : browser :=
  set_content (fold_left (fun c el => on_click b el c) received (content_of b))
              b.

(** ** Promises over the session *)

Inductive error :=
| NoSuchElementError (selector : string)
| TimeoutError (message : string)
| TypeError (message : string)
| WebDriverError (message : string).

(** How a promise stands when the model stops watching it. *)
Inductive outcome (A : Type) :=
| Resolved (a : A)
| Rejected (e : error)
| Pending.
Arguments Resolved {A} a.
Arguments Rejected {A} e.
Arguments Pending {A}.

(** An asynchronous operation: it acts on the session and settles (or not). *)
Definition async (A : Type) : Type := browser -> outcome A * browser.

Definition ret {A} (a : A) : async A := fun b => (Resolved a, b).

(** [await]: the continuation runs only once the awaited promise resolved. *)
Definition bind {A B} (m : async A) (k : A -> async B) : async B :=
  fun b =>
    match m b with
    | (Resolved a, b') => k a b'
    | (Rejected e, b') => (Rejected e, b')
    | (Pending, b') => (Pending, b')
    end.

Notation "x <- m ;; k" := (bind m (fun x => k))
  (at level 61, m at next level, right associativity).
Notation "m ;; k" := (bind m (fun _ => k))
  (at level 61, right associativity).

Definition lookup_attribute (name : string) (attrs : list (string * string))
  : option string :=
  match find (fun kv => String.eqb (fst kv) name) attrs with
  | Some kv => Some (snd kv)
  | None => None
  end.

(** What a page script hands back to the driver. *)
Inductive script_value :=
| SVUndefined
| SVString (s : string)
| SVElements (l : list node).

(** What the helper [getFirstElementContainingText] holds in its local
    [elements]: an array of element handles, or a promise of one. *)
Inductive jsobject :=
| JsArray (l : list node)
| JsPromise (p : outcome (list node)).

(** [o[i]]: an array has its elements as indexed properties, a promise has no
    indexed property; a missing property reads as [undefined] ([None]). *)
Definition js_index (o : jsobject) (i : nat) : option node :=
  match o with
  | JsArray l => nth_error l i
  | JsPromise _ => None
  end.

Section Driver.

(** The browser's selector engine on well-formed selectors. *)
Variable sel_matches : string -> node -> bool.

(** The site: the live document each url leads to. *)
Variable web : string -> Z -> document.

(** The error the driver reports when a url cannot be loaded; [None] for a
    url that loads. *)
Variable net_error : string -> option string.

(** Milliseconds from one evaluation of a waited condition to the next
    (remote round trip and polling interval). *)
Variable poll_ms : positive.

(** How many evaluations of a waited condition the model follows; a wait
    not settled by then is left [Pending]. *)
Variable fuel : nat.

(** The process-wide default timeout, [global.DEFAULT_TIMEOUT]. *)
Variable DEFAULT_TIMEOUT : Z.

(** *** Inside the page *)

Definition querySelectorAll (d : document) (query : string) : list node :=
  filter (sel_matches query) (nodes d).

Definition querySelector (d : document) (qs : string) : option node :=
  hd_error (querySelectorAll d qs).

(** [var txtProp = ('textContent' in document) ? 'textContent' : 'innerText']
    followed by [el[txtProp]]. *)
Definition txtProp (d : document) (el : node) : string :=
  if textContent_in_document d then textContent el else innerText el.

(** helpers.js 50-67; the loop over [elements] pushes onto [results]. *)
Fixpoint findElementsContainingText_loop (d : document) (content : string)
    (elements results : list node) : list node :=
  match elements with
  | [] => results
  | el :: rest =>
      if String.eqb (Js.trim (txtProp d el)) (Js.trim content)
      then findElementsContainingText_loop d content rest (results ++ [el])
      else findElementsContainingText_loop d content rest results
  end.

Definition findElementsContainingText (d : document) (query content : string)
  : list node :=
  findElementsContainingText_loop d content (querySelectorAll d query) [].

(** helpers.js 98-120; [clicks] is the page's record of clicks received. *)
Fixpoint clickElementInDom_loop (d : document) (content : option string)
    (elements clicks : list node) : list node :=
  match elements with
  | [] => clicks
  | el :: rest =>
      if Js.truthy_string content then
        if Js.strict_equals (Some (txtProp d el)) content
        then clickElementInDom_loop d content rest (clicks ++ [el])
        else clickElementInDom_loop d content rest clicks
      else clickElementInDom_loop d content rest (clicks ++ [el])
  end.

Definition clickElementInDom (d : document) (query : string)
    (content : option string) (clicks : list node) : list node :=
  clickElementInDom_loop d content (querySelectorAll d query) clicks.

(** helpers.js 224-230 *)
Definition getBeforeContentValue (d : document) (qs : string) : string :=
  let el := querySelector d qs in
  let styles := match el with Some e => before_style e | None => None end in
  match styles with Some content => content | None => "" end.

(** helpers.js 245-251 *)
Definition getAfterContentValue (d : document) (qs : string) : string :=
  let el := querySelector d qs in
  let styles := match el with Some e => after_style e | None => None end in
  match styles with Some content => content | None => "" end.

Definition clear_storages_source : string :=
  "window.localStorage.clear(); window.sessionStorage.clear();".

(** Running a script in the page.  The nodes the click script clicks are
    recorded and the site acts on the clicks.  A source string other than the
    one above is not interpreted. *)
Definition run_script (s : script) (b : browser) : script_value * browser :=
  let d := current_document b in
  match s with
  | ScriptFindElementsContainingText q c =>
      (SVElements (findElementsContainingText d q c), b)
  | ScriptClickElementInDom q c =>
      let received := clickElementInDom d q c [] in
      (SVUndefined, react received (set_clicked (clicked b ++ received) b))
  | ScriptGetBeforeContentValue qs => (SVString (getBeforeContentValue d qs), b)
  | ScriptGetAfterContentValue qs => (SVString (getAfterContentValue d qs), b)
  | ScriptSource src =>
      if String.eqb src clear_storages_source
      then (SVUndefined, set_storages [] [] b)
      else (SVUndefined, b)
  end.

(** *** The driver *)

(** [driver.get(url)]: resolves once the url has loaded, rejects when it
    cannot be loaded. *)
Definition driver_get (url : string) : async unit :=
  fun b =>
    match net_error url with
    | None => (Resolved tt, set_page (web url) (record_call (CmdGet url) b))
    | Some message =>
        (Rejected (WebDriverError message), record_call (CmdGet url) b)
    end.

(** [driver.findElement(by.css(selector))]: the first match, or a rejection
    when there is none. *)
Definition driver_findElement (selector : string) : async node :=
  fun b =>
    let b' := record_call (CmdFindElement (ByCss selector)) b in
    match querySelectorAll (current_document b') selector with
    | el :: _ => (Resolved el, b')
    | [] => (Rejected (NoSuchElementError selector), b')
    end.

(** [el.getAttribute(name)]: the value, or [null] ([None]) when the element
    has no such attribute. *)
Definition element_getAttribute (el : node) (name : string)
  : async (option string) :=
  ret (lookup_attribute name (attributes el)).

(** [driver.executeScript(script, ...args)] *)
Definition driver_executeScript (s : script) : async script_value :=
  fun b =>
    let '(v, b') := run_script s (record_call (CmdExecuteScript s) b) in
    (Resolved v, b').

(** [driver.findElements(by.js(script, ...args))]: the script's result when
    it is an array of elements, the empty array when it is no array. *)
Definition driver_findElements_js (s : script) : async (list node) :=
  fun b =>
    let '(v, b') := run_script s (record_call (CmdFindElements (ByJs s)) b) in
    match v with
    | SVElements l => (Resolved l, b')
    | _ => (Resolved [], b')
    end.

(** [driver.manage().deleteAllCookies()] *)
Definition driver_deleteAllCookies : async unit :=
  fun b => (Resolved tt, set_cookies [] (record_call CmdDeleteAllCookies b)).

(** The text of the driver's timeout error:
    [(message ? message + '\n' : '') + 'Wait timed out after ' + elapsed + 'ms']. *)
Definition timeout_text (message : option string) (elapsed : Z) : string :=
  (if Js.truthy_string message
   then match message with Some m => m ++ Js.LF | None => "" end
   else "")
  ++ "Wait timed out after " ++ Js.number_to_string elapsed ++ "ms".

(** The driver's polling loop: evaluate the condition; a rejection of the
    condition rejects the wait; a truthy value resolves it; otherwise, when
    a bound is set ([timeout] not 0) and reached, reject with the timeout
    error, else evaluate again. *)
Fixpoint pollCondition {A} (n : nat) (truthy : A -> bool) (cond : async A)
    (start timeout : Z) (message : option string) : async A :=
  match n with
  | O => fun b => (Pending, b)
  | S n' => fun b =>
      match cond b with
      | (Resolved value, b1) =>
          let b2 := set_clock (clock b1 + Z.pos poll_ms) b1 in
          let elapsed := clock b2 - start in
          if truthy value then (Resolved value, b2)
          else if negb (timeout =? 0) && (timeout <=? elapsed)
          then (Rejected (TimeoutError (timeout_text message elapsed)), b2)
          else pollCondition n' truthy cond start timeout message b2
      | (Rejected e, b1) => (Rejected e, b1)
      | (Pending, b1) => (Pending, b1)
      end
  end.

(** [until.elementLocated(by.css(selector))]: the condition's function
    yields the first located element or [undefined], and its description is
    the message of the wait. *)
Definition until_elementLocated_fn (selector : string) : async (option node) :=
  fun b => (Resolved (querySelector (current_document b) selector), b).

Definition until_elementLocated_description (selector : string) : string :=
  "Waiting for element to be located By(css selector, " ++ selector ++ ")".

Definition is_some {A} (o : option A) : bool :=
  match o with Some _ => true | None => false end.

Definition description (c : condition) : option string :=
  match c with
  | UntilElementLocated (ByCss selector) =>
      Some (until_elementLocated_description selector)
  | UntilElementLocated (ByJs _) =>
      Some "Waiting for element to be located by function()"
  | UntilFunction => None
  end.

(** [driver.wait(condition, timeout, message)].  A negative timeout is
    refused before any evaluation (by a throw, which the model does not tell
    apart from a rejection); a condition object supplies its description when
    the caller gives no message. *)
Definition driver_wait {A} (c : condition) (truthy : A -> bool)
    (fn : async A) (timeout : Z) (message : option string) : async A :=
  fun b =>
    let b0 := record_call (CmdWait c timeout message) b in
    if timeout <? 0
    then (Rejected (TypeError ("timeout must be a number >= 0: "
                               ++ Js.number_to_string timeout)), b0)
    else
      let message' := if Js.truthy_string message then message
                      else description c in
      pollCondition fuel truthy fn (clock b0) timeout message' b0.

(** *** src/runtime/helpers.js *)

Definition loadPage (url : string) (waitInSeconds : option Z) : async unit :=
  (* use either passed in timeout or global default *)
  let timeout :=
    match waitInSeconds with
    | Some seconds =>
        if Js.truthy_number waitInSeconds then seconds * 1000
        else DEFAULT_TIMEOUT
    | None => DEFAULT_TIMEOUT
    end in
  (* load the url and wait for it to complete *)
  driver_get url ;;
  (* now wait for the body element to be present *)
  driver_wait (UntilElementLocated (ByCss "body")) is_some
              (until_elementLocated_fn "body") timeout None ;;
  ret tt.

Definition getAttributeValue (htmlCssSelector attributeName : string)
  : async (option string) :=
  el <- driver_findElement htmlCssSelector ;;
  element_getAttribute el attributeName.

Definition getElementsContainingText (cssSelector textToMatch : string)
  : async (list node) :=
  driver_findElements_js
    (ScriptFindElementsContainingText cssSelector textToMatch).

(** [elements] is the promise the call returns, not its value. *)
Definition getFirstElementContainingText (cssSelector textToMatch : string)
  : async (option node) :=
  fun b =>
    let '(settled, b') := getElementsContainingText cssSelector textToMatch b in
    let elements := JsPromise settled in
    (Resolved (js_index elements 0), b').

Definition clickHiddenElement (cssSelector : string)
    (textToMatch : option string) : async (list node) :=
  driver_findElements_js (ScriptClickElementInDom cssSelector textToMatch).

Definition waitUntilAttributeEquals
    (elementSelector attributeName attributeValue : string)
    (waitInMilliseconds : option Z) : async bool :=
  let timeout := Js.or_number waitInMilliseconds DEFAULT_TIMEOUT in
  let timeoutMessage :=
    attributeName ++ " does not equal " ++ attributeValue ++ " after "
    ++ Js.to_string waitInMilliseconds ++ " milliseconds" in
  driver_wait UntilFunction (fun v : bool => v)
    (value <- getAttributeValue elementSelector attributeName ;;
     ret (Js.strict_equals value (Some attributeValue)))
    timeout (Some timeoutMessage).

Definition waitUntilAttributeExists (elementSelector attributeName : string)
    (waitInMilliseconds : option Z) : async bool :=
  let timeout := Js.or_number waitInMilliseconds DEFAULT_TIMEOUT in
  let timeoutMessage :=
    attributeName ++ " does not exists after "
    ++ Js.to_string waitInMilliseconds ++ " milliseconds" in
  driver_wait UntilFunction (fun v : bool => v)
    (value <- getAttributeValue elementSelector attributeName ;;
     ret (negb (Js.strict_equals value None)))
    timeout (Some timeoutMessage).

Definition waitUntilAttributeDoesNotExists
    (elementSelector attributeName : string)
    (waitInMilliseconds : option Z) : async bool :=
  let timeout := Js.or_number waitInMilliseconds DEFAULT_TIMEOUT in
  let timeoutMessage :=
    attributeName ++ " still exists after "
    ++ Js.to_string waitInMilliseconds ++ " milliseconds" in
  driver_wait UntilFunction (fun v : bool => v)
    (value <- getAttributeValue elementSelector attributeName ;;
     ret (Js.strict_equals value None))
    timeout (Some timeoutMessage).

Definition getPseudoElementBeforeValue (cssSelector : string)
  : async script_value :=
  driver_executeScript (ScriptGetBeforeContentValue cssSelector).

Definition getPseudoElementAfterValue (cssSelector : string)
  : async script_value :=
  driver_executeScript (ScriptGetAfterContentValue cssSelector).

Definition clearCookies : async unit :=
  driver_deleteAllCookies ;; ret tt.

Definition clearStorages : async unit :=
  driver_executeScript (ScriptSource clear_storages_source) ;; ret tt.

Definition clearCookiesAndStorages : async unit :=
  clearCookies ;;
  clearStorages ;;
  ret tt.

(** The function the three waiters hand to [driver.wait], for a test [test]
    of the attribute's value; the waiters above spell it out in place. *)
Definition attribute_condition (test : option string -> bool)
    (elementSelector attributeName : string) : async bool :=
  value <- getAttributeValue elementSelector attributeName ;;
  ret (test value).

(** The shape the three waiters share: a wait on that function, with a
    message. *)
Definition attribute_wait (test : option string -> bool)
    (elementSelector attributeName : string) (timeout : Z) (message : string)
  : async bool :=
  driver_wait UntilFunction (fun v : bool => v)
    (attribute_condition test elementSelector attributeName)
    timeout (Some message).

End Driver.

(** A condition that never holds: from a session satisfying [Inv] it resolves
    with a falsy value without moving the clock, and [Inv] survives it and the
    passing of time. *)
Definition never_truthy {A} (Inv : browser -> Prop) (truthy : A -> bool)
    (cond : async A) : Prop :=
  forall b, Inv b ->
    exists v b', cond b = (Resolved v, b') /\ truthy v = false /\
                 clock b' = clock b /\ forall t, Inv (set_clock t b').

(** One evaluation of a condition that settles with the value [v] and moves
    neither the page nor the clock. *)
Definition observes {A} (cond : async A) (x : browser) (v : A) : Prop :=
  exists x', cond x = (Resolved v, x') /\ page x' = page x /\
             clock x' = clock x.

(** Sessions that differ at most in the clock and in the log of driver
    calls: same page, cookies, storages and clicks. *)
Definition same_content (b b' : browser) : Prop :=
  page b' = page b /\ cookies b' = cookies b /\
  localStorage b' = localStorage b /\ sessionStorage b' = sessionStorage b /\
  clicked b' = clicked b.

(** Sessions that differ at most in the log of driver calls. *)
Definition only_logged (b b' : browser) : Prop :=
  same_content b b' /\ clock b' = clock b.

(** A string that does not begin with white space. *)
Definition lead_ok (s : string) : Prop :=
  match s with
  | EmptyString => True
  | String c _ => Js.is_white_space c = false
  end.

(** The bound [loadPage] computes in its first statement. *)
Definition loadPage_bound (DEFAULT_TIMEOUT : Z) (waitInSeconds : option Z) : Z :=
  match waitInSeconds with
  | Some seconds =>
      if Js.truthy_number waitInSeconds then seconds * 1000
      else DEFAULT_TIMEOUT
  | None => DEFAULT_TIMEOUT
  end.

(** ** The world: drivers, hooks and teardown (world.js) *)

Module World.

(** The driver modules [getDriverInstance] chooses from: the three that
    world.js requires by name, and a module required from a file. *)
Inductive driver_module :=
| FireFoxDriver
| ElectronDriver
| ChromeDriver
| RequiredFile (driverFileName : string).

(** A driver object: which one it is (in order of creation), the module that
    built it, and its session. *)
Record instance := {
  id : nat;
  made_by : driver_module;
  session : browser
}.

(** Calls made on driver and eyes objects and on the runner's [this], other
    than the helpers' own (those are logged in the session). *)
Inductive event :=
| EvNewDriver (n : nat) (m : driver_module)
| EvNewEyes (apiKey : string)
| EvClose (n : nat)
| EvQuit (n : nat)
| EvTakeScreenshot (n : nat)
| EvAttach
| EvAbortIfNotClosed
| EvGenerateReport (jsonFile output : string) (launchReport : bool).

(** What a hook throws or rejects with: [new Error(message)], the TypeError
    of reading a property of the [null] driver, a helper's rejection, or the
    driver's refusal of a command: NoSuchWindowError when its last window
    was closed, NoSuchSessionError once it has quit. *)
Inductive failure :=
| Thrown (message : string)
| NullDriver (property : string)
| FromHelper (e : error)
| NoSuchWindow
| NoSuchSession.

(** The life of a driver: it answers commands until its window is closed;
    after [quit] it answers none. *)
Inductive driver_state :=
| Live
| WindowClosed
| SessionEnded.

Inductive settled :=
| Fulfilled
| Failed (f : failure)
| Unsettled.

(** The globals the runner's entry point sets before world.js is loaded. *)
Record settings := {
  browserName : string;
  browserTeardownStrategy : string;
  noScreenshot : bool;
  eyesKey : option string;
  reportsPath : string;
  enableLaunchReport : bool
}.

(** The globals world.js keeps: [driver] and [eyes], both [null] at first;
    the number of drivers created so far; the calls made so far; and, for
    each driver created, where it is in its life. The variable [driver]
    holds a reference: closing the browser does not reset it. *)
Record world := {
  driver : option instance;
  eyes : option string;
  created : nat;
  events : list event;
  state : nat -> driver_state
}.

Definition initial : world :=
  {| driver := None; eyes := None; created := 0; events := [];
     state := fun _ => Live |}.

Definition emit (e : event) (w : world) : world :=
  {| driver := driver w; eyes := eyes w; created := created w;
     events := events w ++ [e]; state := state w |}.

Definition set_driver (d : option instance) (w : world) : world :=
  {| driver := d; eyes := eyes w; created := created w; events := events w;
     state := state w |}.

Definition set_eyes (e : option string) (w : world) : world :=
  {| driver := driver w; eyes := e; created := created w;
     events := events w; state := state w |}.

Definition set_state (n : nat) (s : driver_state) (w : world) : world :=
  {| driver := driver w; eyes := eyes w; created := created w;
     events := events w;
     state := fun k => if Nat.eqb k n then s else state w k |}.

(** What a driver in a given state answers to a command other than [quit]. *)
Definition refusal (s : driver_state) : option failure :=
  match s with
  | Live => None
  | WindowClosed => Some NoSuchWindow
  | SessionEnded => Some NoSuchSession
  end.

(** The driver built by the firefox module. *)
Definition is_firefox (m : driver_module) : bool :=
  match m with
  | FireFoxDriver => true
  | _ => false
  end.

(** [driver.close()]: closes the window, the only one the hooks ever open;
    firefox quits on [close] of its last window. The call is made, and
    recorded, whatever the driver answers. *)
Definition driver_close (d : instance) (w : world) : settled * world :=
  let w1 := emit (EvClose (id d)) w in
  match refusal (state w (id d)) with
  | Some f => (Failed f, w1)
  | None =>
      (Fulfilled,
       set_state (id d)
         (if is_firefox (made_by d) then SessionEnded else WindowClosed) w1)
  end.

(** [driver.quit()]: ends the session; rejected when it has ended already. *)
Definition driver_quit (d : instance) (w : world) : settled * world :=
  let w1 := emit (EvQuit (id d)) w in
  match state w (id d) with
  | SessionEnded => (Failed NoSuchSession, w1)
  | _ => (Fulfilled, set_state (id d) SessionEnded w1)
  end.

(** [driver.takeScreenshot()]. *)
Definition driver_takeScreenshot (d : instance) (w : world)
  : settled * world :=
  let w1 := emit (EvTakeScreenshot (id d)) w in
  match refusal (state w (id d)) with
  | Some f => (Failed f, w1)
  | None => (Fulfilled, w1)
  end.

Definition with_session (d : instance) (b : browser) : instance :=
  {| id := id d; made_by := made_by d; session := b |}.

(** A scenario, as the hooks see it: what its steps do to the session of the
    global driver, and whether one of them fails. *)
Record scenario := {
  steps : browser -> browser;
  fails : bool
}.

Section Hooks.

(** The browser's selector engine, as for the helpers. *)
Variable sel_matches : string -> node -> bool.

(** [path.resolve(a, b)], [process.cwd()], [fs.isFileSync] and
    [fs.existsSync]. *)
Variable path_resolve : string -> string -> string.
Variable cwd : string.
Variable isFileSync : string -> bool.
Variable existsSync : string -> bool.

(** The session a driver built by a module starts with. *)
Variable launch : nat -> driver_module -> browser.

Variable cfg : settings.

Definition new_driver (m : driver_module) (w : world) : instance * world :=
  let d := {| id := created w; made_by := m;
              session := launch (created w) m |} in
  (d, {| driver := driver w; eyes := eyes w; created := S (created w);
         events := events w ++ [EvNewDriver (created w) m];
         state := fun k => if Nat.eqb k (created w) then Live
                           else state w k |}).

(** [getDriverInstance]: the switch on [browserName || ''], whose default
    case requires the driver from a file and throws when there is none. *)
Definition getDriverInstance (w : world) : (failure + instance) * world :=
  let name := if Js.truthy_string (Some (browserName cfg))
              then browserName cfg else "" in
  if String.eqb name "firefox" then
    let '(d, w') := new_driver FireFoxDriver w in (inr d, w')
  else if String.eqb name "electron" then
    let '(d, w') := new_driver ElectronDriver w in (inr d, w')
  else if String.eqb name "chrome" then
    let '(d, w') := new_driver ChromeDriver w in (inr d, w')
  else
    let driverFileName := path_resolve cwd (browserName cfg) in
    if negb (isFileSync driverFileName)
    then (inl (Thrown ("Could not find driver file: " ++ driverFileName)), w)
    else let '(d, w') := new_driver (RequiredFile driverFileName) w in
         (inr d, w').

(** [getEyesInstance]: an Eyes object with the api key when [global.eyesKey]
    is truthy, [null] otherwise. *)
Definition getEyesInstance (w : world) : option string * world :=
  if Js.truthy_string (eyesKey cfg) then
    match eyesKey cfg with
    | Some key => (Some key, emit (EvNewEyes key) w)
    | None => (None, w)
    end
  else (None, w).

(** [closeBrowser]: close, then quit unless the browser is firefox; the
    function goes on to [quit] only when the awaited [close] was fulfilled. *)
Definition closeBrowser (w : world) : settled * world :=
  match driver w with
  | None => (Failed (NullDriver "close"), w)
  | Some d =>
      match driver_close d w with
      | (Fulfilled, w1) =>
          if negb (String.eqb (browserName cfg) "firefox")
          then driver_quit d w1
          else (Fulfilled, w1)
      | other => other
      end
  end.

(** [helpers.clearCookiesAndStorages()] on the global driver, which refuses
    the first command when it does not answer any more. *)
Definition helpers_clearCookiesAndStorages (w : world) : settled * world :=
  match driver w with
  | None => (Failed (NullDriver "manage"), w)
  | Some d =>
      match refusal (state w (id d)) with
      | Some f => (Failed f, w)
      | None =>
          match clearCookiesAndStorages sel_matches (session d) with
          | (Resolved _, b') =>
              (Fulfilled, set_driver (Some (with_session d b')) w)
          | (Rejected e, b') =>
              (Failed (FromHelper e), set_driver (Some (with_session d b')) w)
          | (Pending, b') =>
              (Unsettled, set_driver (Some (with_session d b')) w)
          end
      end
  end.

(** [teardownBrowser]: the switch on [browserTeardownStrategy]. *)
Definition teardownBrowser (w : world) : settled * world :=
  if String.eqb (browserTeardownStrategy cfg) "none" then (Fulfilled, w)
  else if String.eqb (browserTeardownStrategy cfg) "clear"
  then helpers_clearCookiesAndStorages w
  else closeBrowser w.

(** The [Before] hook. *)
Definition Before (w : world) : settled * world :=
  let ensure_eyes (w : world) : settled * world :=
    if negb (is_some (eyes w))
    then let '(e, w') := getEyesInstance w in (Fulfilled, set_eyes e w')
    else (Fulfilled, w) in
  if negb (is_some (driver w))
     || String.eqb (browserTeardownStrategy cfg) "always"
  then
    match getDriverInstance w with
    | (inl f, w') => (Failed f, w')
    | (inr d, w') => ensure_eyes (set_driver (Some d) w')
    end
  else ensure_eyes w.

(** The [After] hook, for a scenario whose status is FAILED or not. *)
Definition After (failed : bool) (w : world) : settled * world :=
  if failed && negb (noScreenshot cfg) then
    match driver w with
    | None => (Failed (NullDriver "takeScreenshot"), w)
    | Some d =>
        match driver_takeScreenshot d w with
        | (Fulfilled, w0) =>
            let w1 := emit EvAttach w0 in
            match teardownBrowser w1 with
            | (Fulfilled, w2) =>
                if is_some (eyes w2)
                then (Fulfilled, emit EvAbortIfNotClosed w2)
                else (Fulfilled, w2)
            | other => other
            end
        | other => other
        end
    end
  else teardownBrowser w.

(** The second [AfterAll] hook: close the browser unless the strategy is
    'always', then schedule the report when the reports folder exists. *)
Definition AfterAll (w : world) : settled * world :=
  let report (w : world) : settled * world :=
    let cucumberReportPath :=
      path_resolve (reportsPath cfg) "cucumber-report.json" in
    if Js.truthy_string (Some (reportsPath cfg)) && existsSync (reportsPath cfg)
    then (Fulfilled,
          emit (EvGenerateReport cucumberReportPath
                  (path_resolve (reportsPath cfg) "cucumber-report.html")
                  (enableLaunchReport cfg)) w)
    else (Fulfilled, w) in
  if negb (String.eqb (browserTeardownStrategy cfg) "always") then
    match closeBrowser w with
    | (Fulfilled, w') => report w'
    | other => other
    end
  else report w.

(** The steps of a scenario act on the session of the global driver (what
    they find of it once the driver has quit is for [steps] to say). *)
Definition run_steps (sc : scenario) (w : world) : world :=
  match driver w with
  | Some d => set_driver (Some (with_session d (steps sc (session d)))) w
  | None => w
  end.

(** One scenario as the runner plays it: the [Before] hook, the steps (not
    run when the hook failed, which fails the scenario), the [After] hook
    with the scenario's status. *)
Definition run_scenario (sc : scenario) (w : world) : world :=
  match Before w with
  | (Fulfilled, w1) => snd (After (fails sc) (run_steps sc w1))
  | (_, w1) => snd (After true w1)
  end.

(** A whole run: the scenarios in order, then [AfterAll]. *)
Definition run_scenarios (scs : list scenario) (w : world) : world :=
  fold_left (fun w sc => run_scenario sc w) scs w.

Definition run (scs : list scenario) : settled * world :=
  AfterAll (run_scenarios scs initial).

(** [getDriverInstance] has a driver to give: the name is one of the three
    built in, or the file it resolves to exists. *)
Definition can_launch : bool :=
  String.eqb (browserName cfg) "firefox"
  || String.eqb (browserName cfg) "electron"
  || String.eqb (browserName cfg) "chrome"
  || isFileSync (path_resolve cwd (browserName cfg)).

End Hooks.

(** A driver that has been closed: it received [close], and [quit] too when
    the browser is one that [closeBrowser] quits. *)
Definition closed (cfg : settings) (n : nat) (w : world) : Prop :=
  In (EvClose n) (events w) /\
  (browserName cfg <> "firefox" -> In (EvQuit n) (events w)).

(** A driver whose session has ended: closed, and answering no more. *)
Definition ended (cfg : settings) (n : nat) (w : world) : Prop :=
  closed cfg n w /\ state w n = SessionEnded.

(** The strategies under which teardown leaves the browser open. *)
Definition keeps_browser (cfg : settings) : Prop :=
  browserTeardownStrategy cfg = "none" \/ browserTeardownStrategy cfg = "clear".

(** Between scenarios: the global driver, if any, is one of those created;
    no driver was created while there is none; every driver created has
    ended, except the current one under a strategy that keeps it; and under
    such a strategy the current driver is live, and is the firefox driver
    exactly when the browser is firefox. *)
Definition tidy (cfg : settings) (w : world) : Prop :=
  (forall d, driver w = Some d -> (id d < created w)%nat) /\
  (driver w = None -> created w = 0%nat) /\
  (forall n, (n < created w)%nat ->
             ended cfg n w \/
             (keeps_browser cfg /\ exists d, driver w = Some d /\ id d = n)) /\
  (keeps_browser cfg ->
   forall d, driver w = Some d ->
             state w (id d) = Live /\
             is_firefox (made_by d) = String.eqb (browserName cfg) "firefox").

End World.

(** ** A small site to run the helpers on *)

Module Fixture.

(** Every node of the fixture is hidden, as the links of a hover menu. *)
Definition mk (id : nat) (text : string) (attrs : list (string * string))
  : node :=
  {| node_id := id; displayed := false;
     textContent := text; innerText := text;
     attributes := attrs; before_style := Some "none";
     after_style := Some "none" |}.

(** Selectors of the fixture are tag names, kept in the [tag] attribute. *)
Definition by_tag (selector : string) (n : node) : bool :=
  Js.strict_equals (lookup_attribute "tag" (attributes n)) (Some selector).

Definition html_busy : node :=
  mk 0 "" [("tag", "html"); ("data-busy", "true")].
Definition body : node := mk 1 "" [("tag", "body")].
Definition link_boots : node := mk 2 "Safety Boots" [("tag", "a")].
Definition link_boots_padded : node := mk 3 " Safety Boots " [("tag", "a")].
Definition link_gloves : node := mk 4 "Gloves" [("tag", "a")].

Definition home : document :=
  {| nodes := [html_busy; body; link_boots; link_boots_padded; link_gloves];
     textContent_in_document := true |}.

(** A document without [html] element (a frame not yet populated). *)
Definition blank : document :=
  {| nodes := []; textContent_in_document := true |}.

(** [html] present, without [data-busy]. *)
Definition idle : document :=
  {| nodes := [mk 0 "" [("tag", "html")]; body];
     textContent_in_document := true |}.

(** An SVG image: a document with no [body]. *)
Definition svg_image : document :=
  {| nodes := [mk 9 "" [("tag", "svg")]]; textContent_in_document := true |}.

Definition url_svg : string := "http://mammothworkwear.com/logo.svg".

(** The home page is there at all times, the logo is an SVG document, any
    other url leads to the blank document. *)
Definition site (url : string) (t : Z) : document :=
  if String.eqb url "http://mammothworkwear.com" then home
  else if String.eqb url url_svg then svg_image
  else blank.

Definition DEFAULT_TIMEOUT : Z := 10000.

Definition url_home : string := "http://mammothworkwear.com".

Definition url_down : string := "http://down.test".

(** The page the "Safety Boots" link leads to. *)
Definition boots_page : document :=
  {| nodes := [mk 0 "" [("tag", "html")]; body;
               mk 5 "Safety Boots" [("tag", "h1")]];
     textContent_in_document := true |}.

(** On the fixture site a click on the exact "Safety Boots" link navigates to
    the boots page and leaves a cookie; other clicks change nothing. *)
Definition follow_link (el : node) (c : content) : content :=
  if Nat.eqb (node_id el) 2
  then {| shown := fun _ => boots_page;
          jar := ("last", "boots") :: jar c;
          local_store := local_store c;
          session_store := session_store c |}
  else c.

(** Urls the driver cannot load. *)
Definition net_error (url : string) : option string :=
  if String.eqb url url_down
  then Some "unknown error: net::ERR_NAME_NOT_RESOLVED"
  else None.

Definition session (d : document) : browser :=
  {| page := fun _ => d; clock := 0;
     cookies := [("sid", "42")];
     localStorage := [("cart", "1")];
     sessionStorage := [("tab", "a")];
     clicked := []; log := []; on_click := follow_link |}.

(** A page whose [html] carries [data-busy="true"] during its first 500 ms
    and loses the attribute afterwards. *)
Definition busy_then_idle (t : Z) : document :=
  if t <? 500 then home else idle.

(** A page whose [body] shows up after 500 ms. *)
Definition late_body (t : Z) : document :=
  if t <? 500 then blank else home.

Definition session_on (p : Z -> document) : browser :=
  {| page := p; clock := 0;
     cookies := [("sid", "42")];
     localStorage := [("cart", "1")];
     sessionStorage := [("tab", "a")];
     clicked := []; log := []; on_click := follow_link |}.

Definition url_late : string := "http://late.test".

Definition site_late (url : string) : Z -> document :=
  if String.eqb url url_late then late_body else site url.

(** A page whose [html] gains [data-busy="true"] after 500 ms. *)
Definition idle_then_busy (t : Z) : document :=
  if t <? 500 then idle else home.

(** A project folder for the hooks: one driver file, a reports folder, and
    drivers that start on the blank document. *)
Definition path_resolve (a b : string) : string := a ++ "/" ++ b.

Definition cwd : string := "/project".

Definition isFileSync (p : string) : bool :=
  String.eqb p "/project/customDriver.js".

Definition existsSync (p : string) : bool := String.eqb p "/project/reports".

Definition launch (n : nat) (m : World.driver_module) : browser :=
  session blank.

Definition settings_for (name strategy : string) : World.settings :=
  {| World.browserName := name;
     World.browserTeardownStrategy := strategy;
     World.noScreenshot := false;
     World.eyesKey := Some "key";
     World.reportsPath := "/project/reports";
     World.enableLaunchReport := false |}.

(** A scenario that visits the home page and is given a cookie, and one that
    fails without touching the session. *)
Definition visit : World.scenario :=
  {| World.steps := fun b => set_cookies [("seen", "1")]
                               (set_page (fun _ => home) b);
     World.fails := false |}.

Definition broken : World.scenario :=
  {| World.steps := fun b => b; World.fails := true |}.

Definition chrome0 : World.instance :=
  {| World.id := 0; World.made_by := World.ChromeDriver;
     World.session := session home |}.

(** A world in which a first chrome driver is in place. *)
Definition running : World.world :=
  {| World.driver := Some chrome0; World.eyes := None; World.created := 1;
     World.events := [World.EvNewDriver 0 World.ChromeDriver];
     World.state := fun _ => World.Live |}.

End Fixture.

(** ** Properties *)

Section Properties.

Variable sel_matches : string -> node -> bool.
Variable web : string -> Z -> document.
Variable net_error : string -> option string.
Variable poll_ms : positive.
Variable DEFAULT_TIMEOUT : Z.

Local Open Scope list_scope.
Local Abbreviation qsa := (querySelectorAll sel_matches).

(** *** JavaScript primitives on examples *)

Example trim_both_ends : Js.trim "  Safety Boots  " = "Safety Boots".
Proof. reflexivity. Qed.

Example trim_keeps_inner_space :
  Js.trim (Js.LF ++ "a  b" ++ Js.LF)%string = "a  b".
Proof. reflexivity. Qed.

Example includes_infix_example :
  Js.includes "after 5000 milliseconds" "5000" = true /\
  Js.includes "after undefined milliseconds" "5000" = false.
Proof. split; reflexivity. Qed.

Example to_string_examples :
  Js.to_string (Some 5000) = "5000" /\ Js.to_string (Some (-3)) = "-3" /\
  Js.to_string (Some 0) = "0" /\ Js.to_string None = "undefined".
Proof. repeat split; reflexivity. Qed.

Example or_number_examples :
  Js.or_number (Some 5000) 10000 = 5000 /\ Js.or_number (Some 0) 10000 = 10000 /\
  Js.or_number None 10000 = 10000.
Proof. repeat split; reflexivity. Qed.

(** *** Awaiting *)

(** A rejected promise ends the async function that awaits it: what follows
    the [await] does not run. *)
Lemma bind_rejected {A B} (m : async A) (k : A -> async B) b e b' :
  m b = (Rejected e, b') -> (x <- m ;; k x) b = (Rejected e, b').
Proof. intro H. unfold bind. now rewrite H. Qed.

Lemma bind_resolved {A B} (m : async A) (k : A -> async B) b a b' :
  m b = (Resolved a, b') -> (x <- m ;; k x) b = k a b'.
Proof. intro H. unfold bind. now rewrite H. Qed.

(** *** The loops of the page scripts *)

Lemma findElementsContainingText_loop_filter d content elements :
  forall results,
    findElementsContainingText_loop d content elements results =
    results ++ filter (fun el => String.eqb (Js.trim (txtProp d el))
                                            (Js.trim content)) elements.
Proof.
  induction elements as [|el rest IH]; intro results; simpl.
  - now rewrite app_nil_r.
  - destruct (String.eqb _ _); rewrite IH.
    + now rewrite <- app_assoc.
    + reflexivity.
Qed.

Lemma clickElementInDom_loop_with_content d c elements :
  c <> "" ->
  forall clicks,
    clickElementInDom_loop d (Some c) elements clicks =
    (clicks ++ filter (fun el => String.eqb (txtProp d el) c) elements)%list.
Proof.
  intros Hc.
  assert (Ht : Js.truthy_string (Some c) = true).
  { simpl. destruct (String.eqb_spec c ""); [contradiction | reflexivity]. }
  induction elements as [|el rest IH]; intro clicks.
  - simpl. now rewrite app_nil_r.
  - cbn [clickElementInDom_loop filter]. rewrite Ht.
    cbn [Js.strict_equals].
    destruct (String.eqb (txtProp d el) c); rewrite IH.
    + now rewrite <- app_assoc.
    + reflexivity.
Qed.

Lemma clickElementInDom_loop_without_content d content elements :
  Js.truthy_string content = false ->
  forall clicks,
    clickElementInDom_loop d content elements clicks = (clicks ++ elements)%list.
Proof.
  intros Hf.
  induction elements as [|el rest IH]; intro clicks.
  - simpl. now rewrite app_nil_r.
  - cbn [clickElementInDom_loop]. rewrite Hf, IH.
    now rewrite <- app_assoc.
Qed.

(** Had the helper awaited the promise, position 0 would be the first
    match. *)
Lemma js_index_array_first (l : list node) :
  js_index (JsArray l) 0 = hd_error l.
Proof. destruct l; reflexivity. Qed.

(** C4. [getFirstElementContainingText] resolves to [undefined] for every
    selector, text and session: it reads position 0 of the promise returned
    by [getElementsContainingText], which has no such property, so no input
    yields an element. *)
Theorem getFirstElementContainingText_undefined :
  forall (cssSelector textToMatch : string) (b : browser),
    fst (getFirstElementContainingText sel_matches cssSelector textToMatch b)
    = Resolved None.
Proof.
  intros cssSelector textToMatch b.
  unfold getFirstElementContainingText.
  destruct (getElementsContainingText sel_matches cssSelector textToMatch b)
    as [settled b'].
  reflexivity.
Qed.



(** C10. With [textToMatch] the empty string, or any falsy value, the
    script takes the filter as absent: every node matched by the selector is
    clicked, whatever its text. *)
Theorem clickHiddenElement_falsy_text_clicks_all :
  forall (cssSelector : string) (textToMatch : option string) (b : browser),
    Js.truthy_string textToMatch = false ->
    clicked (snd (clickHiddenElement sel_matches cssSelector textToMatch b))
    = (clicked b ++ qsa (current_document b) cssSelector)%list.
Proof.
  intros cssSelector textToMatch b Hf.
  unfold clickHiddenElement, driver_findElements_js.
  cbn [run_script fst snd react set_content set_clicked clicked].
  unfold clickElementInDom.
  now rewrite clickElementInDom_loop_without_content.
Qed.

(** C8. When the selector matches no node, [clickHiddenElement] resolves
    (with the empty list) and no node is clicked. *)
Theorem clickHiddenElement_zero_matches :
  forall (cssSelector : string) (textToMatch : option string) (b : browser),
    qsa (current_document b) cssSelector = [] ->
    fst (clickHiddenElement sel_matches cssSelector textToMatch b)
    = Resolved [] /\
    clicked (snd (clickHiddenElement sel_matches cssSelector textToMatch b))
    = clicked b.
Proof.
  intros cssSelector textToMatch b Hnone.
  unfold clickHiddenElement, driver_findElements_js.
  cbn [run_script fst snd react set_content set_clicked clicked].
  split; [reflexivity|].
  unfold clickElementInDom.
  change (current_document (record_call _ b)) with (current_document b).
  rewrite Hnone. cbn [clickElementInDom_loop]. apply app_nil_r.
Qed.

(** C7. When the selector matches no element, both pseudo-element queries
    resolve with the empty string. *)
Theorem getPseudoElementValue_missing_element :
  forall (cssSelector : string) (b : browser),
    qsa (current_document b) cssSelector = [] ->
    fst (getPseudoElementBeforeValue sel_matches cssSelector b)
    = Resolved (SVString "") /\
    fst (getPseudoElementAfterValue sel_matches cssSelector b)
    = Resolved (SVString "").
Proof.
  intros cssSelector b Hnone.
  unfold getPseudoElementBeforeValue, getPseudoElementAfterValue,
    driver_executeScript.
  cbn [run_script fst].
  unfold getBeforeContentValue, getAfterContentValue, querySelector.
  change (current_document (record_call _ b)) with (current_document b).
  now rewrite Hnone.
Qed.

(** C9. [clearCookiesAndStorages] always runs both clearings, one after the
    other: the cookie deletion has resolved, with the jar empty and the
    storages untouched, in the session from which the storage clearing
    starts; the two driver calls are made in that order and the call
    resolves with cookies and both storages empty. *)
Theorem clearCookiesAndStorages_sequential :
  forall b : browser,
    let b1 := snd (clearCookies b) in
    let b2 := snd (clearCookiesAndStorages sel_matches b) in
    fst (clearCookies b) = Resolved tt /\
    cookies b1 = [] /\
    localStorage b1 = localStorage b /\
    sessionStorage b1 = sessionStorage b /\
    log b1 = (log b ++ [CmdDeleteAllCookies])%list /\
    clearCookiesAndStorages sel_matches b = clearStorages sel_matches b1 /\
    fst (clearCookiesAndStorages sel_matches b) = Resolved tt /\
    log b2 = log b ++ [CmdDeleteAllCookies;
                       CmdExecuteScript (ScriptSource clear_storages_source)] /\
    cookies b2 = [] /\ localStorage b2 = [] /\ sessionStorage b2 = [].
Proof.
  intro b. cbv zeta.
  repeat split; try reflexivity.
  cbn. now rewrite <- app_assoc.
Qed.

(** *** The driver's wait *)

Lemma current_document_record_call c b :
  current_document (record_call c b) = current_document b.
Proof. reflexivity. Qed.

(** Waiting for an element to be located makes no driver call of the helpers'
    own and leaves the page where it is. *)
Lemma pollCondition_elementLocated_frame selector start timeout message :
  forall n b,
    let b' := snd (pollCondition poll_ms n is_some
                     (until_elementLocated_fn sel_matches selector)
                     start timeout message b) in
    log b' = log b /\ page b' = page b.
Proof.
  induction n as [|n IH]; intro b; cbv zeta.
  - split; reflexivity.
  - cbn [pollCondition]. unfold until_elementLocated_fn at 1 3.
    destruct (is_some _); [split; reflexivity|].
    destruct (_ && _); [split; reflexivity|].
    destruct (IH (set_clock (clock b + Z.pos poll_ms) b)) as [Hl Hp].
    split; [rewrite Hl | rewrite Hp]; reflexivity.
Qed.

(** With a positive bound and a condition that never holds, the wait rejects
    with the timeout error once enough evaluations are followed, no earlier
    than the bound and within one polling step after it. *)
Lemma pollCondition_times_out {A} (Inv : browser -> Prop) (truthy : A -> bool)
    (cond : async A) (start timeout : Z) (message : option string) :
  0 < timeout ->
  never_truthy Inv truthy cond ->
  forall n b,
    Inv b ->
    clock b - start < timeout ->
    timeout - (clock b - start) <= Z.of_nat n * Z.pos poll_ms ->
    exists elapsed b',
      pollCondition poll_ms n truthy cond start timeout message b
      = (Rejected (TimeoutError (timeout_text message elapsed)), b') /\
      timeout <= elapsed < timeout + Z.pos poll_ms.
Proof.
  intros Hpos Hnever.
  induction n as [|n IH]; intros b HInv Hlt Hfuel.
  - simpl in Hfuel. lia.
  - destruct (Hnever b HInv) as (v & b1 & Hc & Hv & Hclk & HInv').
    cbn [pollCondition]. rewrite Hc, Hv.
    cbn [set_clock clock]. rewrite Hclk.
    destruct (Z.eqb_spec timeout 0) as [->|_]; [lia|]. cbn [negb andb].
    destruct (Z.leb_spec timeout (clock b + Z.pos poll_ms - start)) as [Hge|Hlt'].
    + eexists _, _. split; [reflexivity|]. lia.
    + specialize (IH (set_clock (clock b + Z.pos poll_ms) b1) (HInv' _)).
      cbn [set_clock clock] in IH. apply IH; lia.
Qed.

(** *** The attribute waiters *)

Lemma attribute_condition_missing_element test sel attr b :
  qsa (current_document b) sel = [] ->
  fst (attribute_condition sel_matches test sel attr b) = Rejected (NoSuchElementError sel).
Proof.
  intro Hnone.
  unfold attribute_condition, getAttributeValue, bind, driver_findElement.
  rewrite current_document_record_call, Hnone. reflexivity.
Qed.

Lemma attribute_condition_first_match test sel attr b el rest :
  qsa (current_document b) sel = el :: rest ->
  attribute_condition sel_matches test sel attr b
  = (Resolved (test (lookup_attribute attr (attributes el))),
     record_call (CmdFindElement (ByCss sel)) b).
Proof.
  intro Hsome.
  unfold attribute_condition, getAttributeValue, bind, driver_findElement.
  rewrite current_document_record_call, Hsome. reflexivity.
Qed.

(** On a page where, at all times, the first match of the selector gives the
    test a falsy value, the waiters' condition never holds. *)
Lemma attribute_condition_never_truthy test sel attr (p : Z -> document) :
  (forall t, exists el rest,
      qsa (p t) sel = el :: rest /\
      test (lookup_attribute attr (attributes el)) = false) ->
  never_truthy (fun b => page b = p) (fun v : bool => v)
               (attribute_condition sel_matches test sel attr).
Proof.
  intros Hpage b Hb.
  destruct (Hpage (clock b)) as (el & rest & Hq & Ht).
  assert (Hd : qsa (current_document b) sel = el :: rest).
  { unfold current_document. now rewrite Hb. }
  rewrite (attribute_condition_first_match test sel attr b el rest Hd).
  eexists _, _. split; [reflexivity|].
  repeat split; [exact Ht | intro t; exact Hb].
Qed.

Lemma includes_startsWith s sub : Js.startsWith s sub = true -> Js.includes s sub = true.
Proof. intro H. destruct s; cbn [Js.includes]; rewrite H; reflexivity. Qed.

Lemma startsWith_append sub rest : Js.startsWith (sub ++ rest)%string sub = true.
Proof.
  induction sub as [|c sub IH]; simpl.
  - reflexivity.
  - now rewrite Ascii.eqb_refl, IH.
Qed.

Lemma includes_append_right pre s sub :
  Js.includes s sub = true -> Js.includes (pre ++ s)%string sub = true.
Proof.
  intro H. induction pre as [|c pre IH]; simpl.
  - exact H.
  - rewrite IH. apply orb_true_r.
Qed.

Lemma includes_infix pre sub post :
  Js.includes (pre ++ sub ++ post)%string sub = true.
Proof.
  apply includes_append_right, includes_startsWith, startsWith_append.
Qed.

Lemma includes_append_left s post sub :
  Js.includes s sub = true -> Js.includes (s ++ post)%string sub = true.
Proof.
  assert (Hsw : forall p x, Js.startsWith x p = true ->
                            Js.startsWith (x ++ post)%string p = true).
  { induction p as [|a p IH]; intros x Hx; [reflexivity|].
    destruct x as [|c x]; [discriminate|]. simpl in *.
    apply andb_true_iff in Hx as [Ha Hx]. now rewrite Ha, IH. }
  induction s as [|c s IH]; intro H.
  - simpl in H. rewrite orb_false_r in H.
    destruct sub; [|discriminate]. destruct post; reflexivity.
  - cbn [Js.includes] in H. apply orb_true_iff in H as [H|H].
    + apply includes_startsWith. now apply Hsw.
    + change ((String c s ++ post)%string) with (String c (s ++ post)%string).
      cbn [Js.includes]. rewrite (IH H). apply orb_true_r.
Qed.

(** The part of the timeout message that holds: with an explicit, positive
    [waitInMilliseconds] and an attribute that stays, the wait for its absence
    rejects with the driver's timeout error, whose text names the attribute
    and carries the bound. *)
Lemma waitUntilAttributeDoesNotExists_explicit_bound
    (fuel : nat) (sel attr : string) (ms : Z) (b : browser) :
  0 < ms ->
  ms <= Z.of_nat fuel * Z.pos poll_ms ->
  (forall t, exists el rest,
      qsa (page b t) sel = el :: rest /\
      Js.strict_equals (lookup_attribute attr (attributes el)) None = false) ->
  exists text,
    fst (waitUntilAttributeDoesNotExists sel_matches poll_ms fuel
           DEFAULT_TIMEOUT sel attr (Some ms) b)
    = Rejected (TimeoutError text) /\
    Js.includes text attr = true /\
    Js.includes text (Js.number_to_string ms) = true.
Proof.
  intros Hpos Hfuel Hpage.
  unfold waitUntilAttributeDoesNotExists, driver_wait.
  assert (Hor : Js.or_number (Some ms) DEFAULT_TIMEOUT = ms).
  { unfold Js.or_number, Js.truthy_number.
    destruct (Z.eqb_spec ms 0); [lia | reflexivity]. }
  rewrite Hor. destruct (Z.ltb_spec ms 0) as [|_]; [lia|].
  set (msg := (attr ++ " still exists after " ++ Js.to_string (Some ms)
               ++ " milliseconds")%string).
  assert (Hmsg : Js.truthy_string (Some msg) = true).
  { subst msg. destruct attr; reflexivity. }
  rewrite Hmsg.
  set (b0 := record_call _ b).
  destruct (pollCondition_times_out (fun x => page x = page b)
              (fun v : bool => v)
              (attribute_condition sel_matches
                 (fun v => Js.strict_equals v None) sel attr)
              (clock b0) ms (Some msg) Hpos
              (attribute_condition_never_truthy _ sel attr (page b) Hpage)
              fuel b0 eq_refl) as (elapsed & b' & Hrun & _).
  { lia. }
  { replace (clock b0 - clock b0) with 0 by lia. lia. }
  unfold attribute_condition in Hrun. rewrite Hrun. cbn [fst].
  eexists. split; [reflexivity|].
  unfold timeout_text. rewrite Hmsg. subst msg. split.
  - apply includes_append_left, includes_append_left.
    apply includes_startsWith, startsWith_append.
  - apply includes_append_left, includes_append_left.
    apply includes_append_right, includes_infix.
Qed.

(** C1 (as the code has it).  The lookup used by the attribute waiters does
    not turn a missing element into [null]: when the selector matches no
    element, [getAttributeValue] rejects with the driver's no-such-element
    error, and [waitUntilAttributeDoesNotExists] (with a bound the driver
    accepts) rejects with that error at its first evaluation; when the first
    match exists and lacks the attribute, it resolves at its first
    evaluation, one polling step on the clock. *)
Theorem waitUntilAttributeDoesNotExists_missing_element_rejects :
  forall (fuel : nat) (sel attr : string) (ms : option Z)
         (b b' : browser) (el : node) (rest : list node),
    0 <= Js.or_number ms DEFAULT_TIMEOUT ->
    qsa (current_document b) sel = [] ->
    qsa (current_document b') sel = el :: rest ->
    lookup_attribute attr (attributes el) = None ->
    fst (getAttributeValue sel_matches sel attr b)
    = Rejected (NoSuchElementError sel) /\
    fst (waitUntilAttributeDoesNotExists sel_matches poll_ms (S fuel)
           DEFAULT_TIMEOUT sel attr ms b)
    = Rejected (NoSuchElementError sel) /\
    fst (waitUntilAttributeDoesNotExists sel_matches poll_ms (S fuel)
           DEFAULT_TIMEOUT sel attr ms b')
    = Resolved true /\
    clock (snd (waitUntilAttributeDoesNotExists sel_matches poll_ms (S fuel)
                  DEFAULT_TIMEOUT sel attr ms b'))
    = clock b' + Z.pos poll_ms.
Proof.
  intros fuel sel attr ms b b' el rest Hms Hnone Hsome Hattr.
  split.
  { unfold getAttributeValue, bind, driver_findElement.
    rewrite current_document_record_call, Hnone. reflexivity. }
  unfold waitUntilAttributeDoesNotExists, driver_wait.
  destruct (Z.ltb_spec (Js.or_number ms DEFAULT_TIMEOUT) 0) as [|_]; [lia|].
  cbn [pollCondition].
  fold (attribute_condition sel_matches (fun v => Js.strict_equals v None)
          sel attr).
  split.
  - match goal with
    | |- context [attribute_condition sel_matches ?t sel attr ?x] =>
        pose proof (attribute_condition_missing_element t sel attr x) as Hc;
        destruct (attribute_condition sel_matches t sel attr x) as [o x'] eqn:Hrun
    end.
    rewrite current_document_record_call in Hc.
    cbn [fst] in Hc. rewrite (Hc Hnone). reflexivity.
  - match goal with
    | |- context [attribute_condition sel_matches ?t sel attr ?x] =>
        rewrite (attribute_condition_first_match t sel attr x el rest)
          by (rewrite current_document_record_call; exact Hsome)
    end.
    rewrite Hattr. cbn [Js.strict_equals]. split; reflexivity.
Qed.


(** C2 (as the code has it).  For a url the driver loads, [loadPage]
    navigates to the url and then waits for the [body] element; its second
    argument is a number of seconds, so a truthy value [s] bounds the wait by
    [s * 1000] milliseconds, and an omitted or falsy one leaves the
    process-wide default as the bound.  The session ends on the page of the
    url. *)
Theorem loadPage_bound_is_seconds_times_1000 :
  forall (fuel : nat) (url : string) (seconds : Z) (omitted : option Z)
         (b : browser),
    net_error url = None ->
    seconds <> 0 ->
    Js.truthy_number omitted = false ->
    let run := loadPage sel_matches web net_error poll_ms fuel DEFAULT_TIMEOUT
                 url in
    let wait_body timeout :=
      CmdWait (UntilElementLocated (ByCss "body")) timeout None in
    log (snd (run (Some seconds) b))
    = log b ++ [CmdGet url; wait_body (seconds * 1000)] /\
    log (snd (run omitted b))
    = log b ++ [CmdGet url; wait_body DEFAULT_TIMEOUT] /\
    page (snd (run (Some seconds) b)) = web url /\
    page (snd (run omitted b)) = web url.
Proof.
  intros fuel url seconds omitted b Hup Hs Ho run wait_body.
  assert (Hframe : forall timeout,
    let r := (driver_get web net_error url ;;
              driver_wait poll_ms fuel
                (UntilElementLocated (ByCss "body")) is_some
                (until_elementLocated_fn sel_matches "body") timeout None ;;
              ret tt) b in
    log (snd r) = log b ++ [CmdGet url; wait_body timeout] /\
    page (snd r) = web url).
  { intro timeout. cbv zeta. unfold bind at 1. unfold driver_get.
    rewrite Hup. unfold bind, driver_wait.
    destruct (timeout <? 0).
    - cbn. rewrite <- app_assoc. split; reflexivity.
    - match goal with
      | |- context [pollCondition poll_ms fuel is_some ?c ?st ?t ?m ?x] =>
          destruct (pollCondition_elementLocated_frame "body" st t m fuel x)
            as [Hl Hp];
          destruct (pollCondition poll_ms fuel is_some c st t m x)
            as [[v| e |] x'] eqn:Hrun
      end; cbn [snd fst ret] in *; rewrite Hl, Hp; cbn;
      rewrite <- app_assoc; split; reflexivity. }
  subst run. unfold loadPage.
  assert (Ht : Js.truthy_number (Some seconds) = true).
  { simpl. destruct (Z.eqb_spec seconds 0); [contradiction | reflexivity]. }
  rewrite Ht.
  destruct (Hframe (seconds * 1000)) as [H1 H2].
  assert (Hdef : match omitted with
                 | Some s => if Js.truthy_number omitted then s * 1000
                             else DEFAULT_TIMEOUT
                 | None => DEFAULT_TIMEOUT
                 end = DEFAULT_TIMEOUT).
  { destruct omitted; [rewrite Ho|]; reflexivity. }
  rewrite Hdef.
  destruct (Hframe DEFAULT_TIMEOUT) as [H3 H4].
  repeat split; assumption.
Qed.

End Properties.

(** ** The helpers on the fixture site *)

Local Open Scope list_scope.

(** C3.  On the home page, where [html] keeps its [data-busy="true"], the
    three waiters called without [waitInMilliseconds] are bound by the
    default of 10000 ms and reject with the timeout error, but the text of
    the error reads "undefined" where the bound should stand and does not
    contain 10000: the message is built from the raw argument, not from the
    resolved [timeout]. *)
Theorem attribute_waiters_message_omits_default_timeout :
  let run (w : option Z -> async bool) := w None (Fixture.session Fixture.home) in
  let absent := waitUntilAttributeDoesNotExists Fixture.by_tag 300 100 Fixture.DEFAULT_TIMEOUT
                  "html" "data-busy" in
  let equals := waitUntilAttributeEquals Fixture.by_tag 300 100 Fixture.DEFAULT_TIMEOUT
                  "html" "data-busy" "false" in
  let present := waitUntilAttributeExists Fixture.by_tag 300 100 Fixture.DEFAULT_TIMEOUT
                  "html" "data-ready" in
  let tail := (Js.LF ++ "Wait timed out after 10200ms")%string in
  let text_absent :=
    ("data-busy still exists after undefined milliseconds" ++ tail)%string in
  let text_equals :=
    ("data-busy does not equal false after undefined milliseconds" ++ tail)%string in
  let text_present :=
    ("data-ready does not exists after undefined milliseconds" ++ tail)%string in
  fst (run absent) = Rejected (TimeoutError text_absent) /\
  fst (run equals) = Rejected (TimeoutError text_equals) /\
  fst (run present) = Rejected (TimeoutError text_present) /\
  hd_error (log (snd (run absent)))
  = Some (CmdWait UntilFunction 10000
            (Some "data-busy still exists after undefined milliseconds")) /\
  Js.includes text_absent (Js.number_to_string Fixture.DEFAULT_TIMEOUT) = false /\
  Js.includes text_equals (Js.number_to_string Fixture.DEFAULT_TIMEOUT) = false /\
  Js.includes text_present (Js.number_to_string Fixture.DEFAULT_TIMEOUT) = false.
Proof. vm_compute. repeat split. Qed.


(** On a document where [html] matches nothing the lookup rejects and so does
    the wait for the attribute's absence, while on the document whose [html]
    lacks the attribute the same wait resolves: the two cases are told apart. *)
Lemma waitUntilAttributeDoesNotExists_missing_element_counterexample :
  querySelectorAll Fixture.by_tag
    (current_document (Fixture.session Fixture.blank)) "html" = [] /\
  fst (getAttributeValue Fixture.by_tag "html" "data-busy"
         (Fixture.session Fixture.blank))
  = Rejected (NoSuchElementError "html") /\
  fst (waitUntilAttributeDoesNotExists Fixture.by_tag 200 50
         Fixture.DEFAULT_TIMEOUT "html" "data-busy" (Some 5000)
         (Fixture.session Fixture.blank))
  = Rejected (NoSuchElementError "html") /\
  fst (waitUntilAttributeDoesNotExists Fixture.by_tag 200 50
         Fixture.DEFAULT_TIMEOUT "html" "data-busy" (Some 5000)
         (Fixture.session Fixture.idle))
  = Resolved true.
Proof. vm_compute. repeat split. Qed.

Lemma waitUntilAttributeDoesNotExists_missing_element_rejects_witness :
  fst (getAttributeValue Fixture.by_tag "html" "data-busy"
         (Fixture.session Fixture.blank))
  = Rejected (NoSuchElementError "html") /\
  fst (waitUntilAttributeDoesNotExists Fixture.by_tag 200 1
         Fixture.DEFAULT_TIMEOUT "html" "data-busy" (Some 5000)
         (Fixture.session Fixture.blank))
  = Rejected (NoSuchElementError "html") /\
  fst (waitUntilAttributeDoesNotExists Fixture.by_tag 200 1
         Fixture.DEFAULT_TIMEOUT "html" "data-busy" (Some 5000)
         (Fixture.session Fixture.idle))
  = Resolved true /\
  clock (snd (waitUntilAttributeDoesNotExists Fixture.by_tag 200 1
                Fixture.DEFAULT_TIMEOUT "html" "data-busy" (Some 5000)
                (Fixture.session Fixture.idle)))
  = 200.
Proof.
  exact (waitUntilAttributeDoesNotExists_missing_element_rejects
           Fixture.by_tag 200 Fixture.DEFAULT_TIMEOUT 0 "html" "data-busy"
           (Some 5000) (Fixture.session Fixture.blank)
           (Fixture.session Fixture.idle)
           (Fixture.mk 0 "" [("tag", "html")]) []
           ltac:(discriminate) eq_refl eq_refl eq_refl).
Defined.

(** [loadPage(url, 5)] on the home page: the wait it asks of the driver is
    bound by 5000 ms, not by 5, and it resolves. *)
Lemma loadPage_bound_counterexample :
  let r := loadPage Fixture.by_tag Fixture.site Fixture.net_error 200 50
             Fixture.DEFAULT_TIMEOUT Fixture.url_home (Some 5)
             (Fixture.session Fixture.blank) in
  fst r = Resolved tt /\
  log (snd r) = [CmdGet Fixture.url_home;
                 CmdWait (UntilElementLocated (ByCss "body")) 5000 None] /\
  ~ In (CmdWait (UntilElementLocated (ByCss "body")) 5 None) (log (snd r)).
Proof.
  vm_compute. repeat split.
  intros [H | [H | []]]; discriminate H.
Qed.

Lemma loadPage_bound_is_seconds_times_1000_witness :
  let run := loadPage Fixture.by_tag Fixture.site Fixture.net_error 200 50
               Fixture.DEFAULT_TIMEOUT Fixture.url_home in
  let b := Fixture.session Fixture.blank in
  log (snd (run (Some 5) b))
  = [CmdGet Fixture.url_home;
     CmdWait (UntilElementLocated (ByCss "body")) 5000 None] /\
  log (snd (run (Some 0) b))
  = [CmdGet Fixture.url_home;
     CmdWait (UntilElementLocated (ByCss "body")) 10000 None] /\
  page (snd (run (Some 5) b)) = Fixture.site Fixture.url_home /\
  page (snd (run (Some 0) b)) = Fixture.site Fixture.url_home.
Proof.
  exact (loadPage_bound_is_seconds_times_1000 Fixture.by_tag Fixture.site
           Fixture.net_error 200 Fixture.DEFAULT_TIMEOUT 50 Fixture.url_home
           5 (Some 0) (Fixture.session Fixture.blank) eq_refl
           ltac:(discriminate) eq_refl).
Defined.


Lemma getPseudoElementValue_missing_element_witness :
  fst (getPseudoElementBeforeValue Fixture.by_tag "header"
         (Fixture.session Fixture.home))
  = Resolved (SVString "") /\
  fst (getPseudoElementAfterValue Fixture.by_tag "header"
         (Fixture.session Fixture.home))
  = Resolved (SVString "").
Proof.
  exact (getPseudoElementValue_missing_element Fixture.by_tag "header"
           (Fixture.session Fixture.home) eq_refl).
Defined.

Lemma clickHiddenElement_zero_matches_witness :
  fst (clickHiddenElement Fixture.by_tag "button" (Some "Buy")
         (Fixture.session Fixture.home))
  = Resolved [] /\
  clicked (snd (clickHiddenElement Fixture.by_tag "button" (Some "Buy")
                  (Fixture.session Fixture.home)))
  = [].
Proof.
  exact (clickHiddenElement_zero_matches Fixture.by_tag "button" (Some "Buy")
           (Fixture.session Fixture.home) eq_refl).
Defined.

Lemma clickHiddenElement_falsy_text_clicks_all_witness :
  clicked (snd (clickHiddenElement Fixture.by_tag "a" (Some "")
                  (Fixture.session Fixture.home)))
  = [Fixture.link_boots; Fixture.link_boots_padded; Fixture.link_gloves].
Proof.
  exact (clickHiddenElement_falsy_text_clicks_all Fixture.by_tag "a" (Some "")
           (Fixture.session Fixture.home) eq_refl).
Defined.

(** ** Further properties of the helpers *)

Section Waiting.

Variable sel_matches : string -> node -> bool.
Variable web : string -> Z -> document.
Variable poll_ms : positive.
Variable DEFAULT_TIMEOUT : Z.

Local Abbreviation qsa := (querySelectorAll sel_matches).
Local Abbreviation step := (Z.pos poll_ms).

Lemma strict_equals_true a b : Js.strict_equals a b = true <-> a = b.
Proof.
  destruct a as [x|], b as [y|]; simpl; split; intro H;
    try discriminate; try reflexivity.
  - apply String.eqb_eq in H. now subst.
  - inversion H. apply String.eqb_refl.
Qed.

Lemma strict_equals_false a b : Js.strict_equals a b = false <-> a <> b.
Proof.
  split.
  - intros H Heq. apply strict_equals_true in Heq. congruence.
  - intro H. destruct (Js.strict_equals a b) eqn:E; [|reflexivity].
    apply strict_equals_true in E. contradiction.
Qed.

(** The wait resolves at the first evaluation that gives a truthy value,
    provided the bound (if any) is not reached before it: [k] falsy
    evaluations, one step apart, then a truthy one. *)
Lemma pollCondition_resolves {A} (truthy : A -> bool) (cond : async A)
    (start timeout : Z) (message : option string) (p : Z -> document) :
  forall (k n : nat) (b : browser),
    page b = p ->
    (forall i x, (i < k)%nat -> page x = p ->
                 clock x = clock b + Z.of_nat i * step ->
                 exists v, observes cond x v /\ truthy v = false) ->
    (forall x, page x = p -> clock x = clock b + Z.of_nat k * step ->
               exists v, observes cond x v /\ truthy v = true) ->
    timeout = 0 \/ clock b - start + Z.of_nat k * step < timeout ->
    (k < n)%nat ->
    exists v b',
      pollCondition poll_ms n truthy cond start timeout message b
      = (Resolved v, b') /\
      truthy v = true /\ page b' = p /\
      clock b' = clock b + (Z.of_nat k + 1) * step.
Proof.
  induction k as [|k IH]; intros n b Hp Hfalse Htrue Hbound Hn;
    (destruct n as [|n]; [lia|]); cbn [pollCondition].
  - destruct (Htrue b Hp) as (v & (x' & Hc & Hpx & Hcx) & Hv); [simpl; lia|].
    rewrite Hc, Hv. eexists _, _. split; [reflexivity|].
    cbn [set_clock page clock]. repeat split; [assumption | congruence | lia].
  - destruct (Hfalse 0%nat b) as (v & (x' & Hc & Hpx & Hcx) & Hv);
      [lia | assumption | simpl; lia |].
    rewrite Hc, Hv. cbn [set_clock page clock].
    assert (Hgo : negb (timeout =? 0) && (timeout <=? clock x' + step - start)
                  = false).
    { destruct Hbound as [-> | Hlt]; [reflexivity|].
      apply andb_false_iff. right. apply Z.leb_gt. lia. }
    rewrite Hgo.
    destruct (IH n (set_clock (clock x' + step) x')) as (w & b' & Hr & Hw & Hpb & Hcb).
    + cbn. congruence.
    + intros i x Hi Hx Hclk. apply (Hfalse (S i) x); [lia | assumption |].
      cbn [set_clock clock] in Hclk. lia.
    + intros x Hx Hclk. apply (Htrue x Hx).
      cbn [set_clock clock] in Hclk. lia.
    + cbn [set_clock clock]. destruct Hbound as [-> | Hlt]; [now left | right]. lia.
    + lia.
    + exists w, b'. rewrite Hr. repeat split; try assumption.
      rewrite Hcb. cbn [set_clock clock]. lia.
Qed.

(** What the waiters' condition observes on a session whose selector has a
    first match. *)
Lemma attribute_condition_observes test sel attr x el rest :
  qsa (current_document x) sel = el :: rest ->
  observes (attribute_condition sel_matches test sel attr) x
           (test (lookup_attribute attr (attributes el))).
Proof.
  intro Hq. eexists. split.
  - apply (attribute_condition_first_match sel_matches test sel attr x el rest Hq).
  - split; reflexivity.
Qed.

Lemma attribute_wait_resolves fuel test sel attr timeout message :
  forall (k : nat) (b : browser),
    0 <= timeout ->
    timeout = 0 \/ Z.of_nat k * step < timeout ->
    (k < fuel)%nat ->
    (forall i, (i < k)%nat -> exists el rest,
        qsa (page b (clock b + Z.of_nat i * step)) sel = el :: rest /\
        test (lookup_attribute attr (attributes el)) = false) ->
    (exists el rest,
        qsa (page b (clock b + Z.of_nat k * step)) sel = el :: rest /\
        test (lookup_attribute attr (attributes el)) = true) ->
    let r := attribute_wait sel_matches poll_ms fuel test sel attr timeout
               message b in
    fst r = Resolved true /\
    clock (snd r) = clock b + (Z.of_nat k + 1) * step /\
    page (snd r) = page b.
Proof.
  intros k b Hpos Hbound Hfuel Hfalse Htrue r. subst r.
  unfold attribute_wait, driver_wait.
  destruct (Z.ltb_spec timeout 0) as [|_]; [lia|].
  set (b0 := record_call _ b).
  destruct (pollCondition_resolves (fun v : bool => v)
              (attribute_condition sel_matches test sel attr)
              (clock b0) timeout
              (if Js.truthy_string (Some message) then Some message
               else description UntilFunction)
              (page b) k fuel b0 eq_refl) as (v & b' & Hr & Hv & Hp & Hc).
  - intros i x Hi Hx Hclk.
    destruct (Hfalse i Hi) as (el & rest & Hq & Ht).
    exists (test (lookup_attribute attr (attributes el))). split; [|exact Ht].
    apply (attribute_condition_observes test sel attr x el rest).
    unfold current_document. now rewrite Hx, Hclk.
  - intros x Hx Hclk.
    destruct Htrue as (el & rest & Hq & Ht).
    exists (test (lookup_attribute attr (attributes el))). split; [|exact Ht].
    apply (attribute_condition_observes test sel attr x el rest).
    unfold current_document. now rewrite Hx, Hclk.
  - destruct Hbound as [-> | Hlt]; [now left | right].
    replace (clock b0 - clock b0) with 0 by lia. lia.
  - exact Hfuel.
  - rewrite Hr. cbn [fst snd]. simpl in Hv. subst v.
    repeat split; assumption.
Qed.

(** The driver's timeout text does not depend on how an empty message is
    passed. *)
Lemma timeout_text_message message elapsed :
  timeout_text (if Js.truthy_string (Some message) then Some message
                else description UntilFunction) elapsed
  = timeout_text (Some message) elapsed.
Proof.
  destruct (Js.truthy_string (Some message)) eqn:E; [reflexivity|].
  unfold timeout_text. rewrite E. reflexivity.
Qed.

(** As [pollCondition_times_out], with the time the rejected wait took. *)
Lemma pollCondition_times_out_clock {A} (Inv : browser -> Prop)
    (truthy : A -> bool) (cond : async A) (start timeout : Z)
    (message : option string) :
  0 < timeout ->
  never_truthy Inv truthy cond ->
  forall n b,
    Inv b ->
    clock b - start < timeout ->
    timeout - (clock b - start) <= Z.of_nat n * step ->
    exists elapsed b',
      pollCondition poll_ms n truthy cond start timeout message b
      = (Rejected (TimeoutError (timeout_text message elapsed)), b') /\
      timeout <= elapsed < timeout + step /\
      clock b' = start + elapsed /\ Inv b'.
Proof.
  intros Hpos Hnever.
  induction n as [|n IH]; intros b HInv Hlt Hfuel.
  - simpl in Hfuel. lia.
  - destruct (Hnever b HInv) as (v & b1 & Hc & Hv & Hclk & HInv').
    cbn [pollCondition]. rewrite Hc, Hv.
    cbn [set_clock clock]. rewrite Hclk.
    destruct (Z.eqb_spec timeout 0) as [->|_]; [lia|]. cbn [negb andb].
    destruct (Z.leb_spec timeout (clock b + step - start)) as [Hge|Hlt'].
    + eexists _, _. split; [reflexivity|]. cbn [clock].
      repeat split; [lia | lia | cbn [set_clock clock]; lia | apply HInv'].
    + specialize (IH (set_clock (clock b + step) b1) (HInv' _)).
      cbn [set_clock clock] in IH. apply IH; lia.
Qed.

Lemma attribute_wait_times_out fuel test sel attr timeout message b :
  0 < timeout ->
  timeout <= Z.of_nat fuel * step ->
  (forall t, exists el rest,
      qsa (page b t) sel = el :: rest /\
      test (lookup_attribute attr (attributes el)) = false) ->
  let r := attribute_wait sel_matches poll_ms fuel test sel attr timeout
             message b in
  exists elapsed,
    fst r = Rejected (TimeoutError (timeout_text (Some message) elapsed)) /\
    timeout <= elapsed < timeout + step /\
    clock (snd r) = clock b + elapsed.
Proof.
  intros Hpos Hfuel Hpage r. subst r.
  unfold attribute_wait, driver_wait.
  destruct (Z.ltb_spec timeout 0) as [|_]; [lia|].
  set (b0 := record_call _ b).
  destruct (pollCondition_times_out_clock (fun x => page x = page b)
              (fun v : bool => v)
              (attribute_condition sel_matches test sel attr)
              (clock b0) timeout
              (if Js.truthy_string (Some message) then Some message
               else description UntilFunction) Hpos
              (attribute_condition_never_truthy sel_matches test sel attr
                 (page b) Hpage)
              fuel b0 eq_refl) as (elapsed & b' & Hrun & Hel & Hclk & _).
  { lia. }
  { replace (clock b0 - clock b0) with 0 by lia. lia. }
  rewrite Hrun. cbn [fst snd]. exists elapsed.
  rewrite timeout_text_message. repeat split; try lia. exact Hclk.
Qed.

Lemma attribute_wait_missing_element fuel test sel attr timeout message b :
  0 <= timeout ->
  qsa (current_document b) sel = [] ->
  fst (attribute_wait sel_matches poll_ms (S fuel) test sel attr timeout
         message b)
  = Rejected (NoSuchElementError sel).
Proof.
  intros Hpos Hnone. unfold attribute_wait, driver_wait.
  destruct (Z.ltb_spec timeout 0) as [|_]; [lia|].
  cbn [pollCondition].
  match goal with
  | |- context [attribute_condition sel_matches test sel attr ?x] =>
      pose proof (attribute_condition_missing_element sel_matches test sel
                    attr x) as Hc;
      destruct (attribute_condition sel_matches test sel attr x)
        as [o x'] eqn:Hrun
  end.
  rewrite current_document_record_call in Hc.
  cbn [fst] in Hc. rewrite (Hc Hnone). reflexivity.
Qed.

(** X1. [waitUntilAttributeEquals] resolves as soon as the attribute of the
    first match reads the awaited value: after [k] evaluations that find
    another value (or none), one polling step apart, the evaluation that
    finds it resolves the wait with [true], provided the bound, if any, is
    not reached before. *)
Theorem waitUntilAttributeEquals_resolves_when_value_appears :
  forall (fuel k : nat) (sel attr value : string) (ms : option Z)
         (b : browser),
    0 <= Js.or_number ms DEFAULT_TIMEOUT ->
    Js.or_number ms DEFAULT_TIMEOUT = 0 \/
    Z.of_nat k * step < Js.or_number ms DEFAULT_TIMEOUT ->
    (k < fuel)%nat ->
    (forall i, (i < k)%nat -> exists el rest,
        qsa (page b (clock b + Z.of_nat i * step)) sel = el :: rest /\
        lookup_attribute attr (attributes el) <> Some value) ->
    (exists el rest,
        qsa (page b (clock b + Z.of_nat k * step)) sel = el :: rest /\
        lookup_attribute attr (attributes el) = Some value) ->
    let r := waitUntilAttributeEquals sel_matches poll_ms fuel DEFAULT_TIMEOUT
               sel attr value ms b in
    fst r = Resolved true /\
    clock (snd r) = clock b + (Z.of_nat k + 1) * step /\
    page (snd r) = page b.
Proof.
  intros fuel k sel attr value ms b Hpos Hbound Hfuel Hfalse Htrue.
  apply (attribute_wait_resolves fuel
           (fun v => Js.strict_equals v (Some value)) sel attr
           (Js.or_number ms DEFAULT_TIMEOUT) _ k b Hpos Hbound Hfuel).
  - intros i Hi. destruct (Hfalse i Hi) as (el & rest & Hq & Hne).
    exists el, rest. split; [exact Hq|]. now apply strict_equals_false.
  - destruct Htrue as (el & rest & Hq & He).
    exists el, rest. split; [exact Hq|]. now apply strict_equals_true.
Qed.

(** X2. [waitUntilAttributeExists] resolves as soon as the first match
    carries the attribute, whatever its value: [k] evaluations without it,
    then one with it, within the bound. *)
Theorem waitUntilAttributeExists_resolves_when_attribute_appears :
  forall (fuel k : nat) (sel attr : string) (ms : option Z) (b : browser),
    0 <= Js.or_number ms DEFAULT_TIMEOUT ->
    Js.or_number ms DEFAULT_TIMEOUT = 0 \/
    Z.of_nat k * step < Js.or_number ms DEFAULT_TIMEOUT ->
    (k < fuel)%nat ->
    (forall i, (i < k)%nat -> exists el rest,
        qsa (page b (clock b + Z.of_nat i * step)) sel = el :: rest /\
        lookup_attribute attr (attributes el) = None) ->
    (exists el rest value,
        qsa (page b (clock b + Z.of_nat k * step)) sel = el :: rest /\
        lookup_attribute attr (attributes el) = Some value) ->
    let r := waitUntilAttributeExists sel_matches poll_ms fuel DEFAULT_TIMEOUT
               sel attr ms b in
    fst r = Resolved true /\
    clock (snd r) = clock b + (Z.of_nat k + 1) * step /\
    page (snd r) = page b.
Proof.
  intros fuel k sel attr ms b Hpos Hbound Hfuel Hfalse Htrue.
  apply (attribute_wait_resolves fuel
           (fun v => negb (Js.strict_equals v None)) sel attr
           (Js.or_number ms DEFAULT_TIMEOUT) _ k b Hpos Hbound Hfuel).
  - intros i Hi. destruct (Hfalse i Hi) as (el & rest & Hq & He).
    exists el, rest. split; [exact Hq|]. now rewrite He.
  - destruct Htrue as (el & rest & value & Hq & He).
    exists el, rest. split; [exact Hq|]. now rewrite He.
Qed.

(** X3. [waitUntilAttributeDoesNotExists] resolves as soon as the first match
    has lost the attribute: [k] evaluations that still find it, then one
    that does not, within the bound. *)
Theorem waitUntilAttributeDoesNotExists_resolves_when_attribute_goes :
  forall (fuel k : nat) (sel attr : string) (ms : option Z) (b : browser),
    0 <= Js.or_number ms DEFAULT_TIMEOUT ->
    Js.or_number ms DEFAULT_TIMEOUT = 0 \/
    Z.of_nat k * step < Js.or_number ms DEFAULT_TIMEOUT ->
    (k < fuel)%nat ->
    (forall i, (i < k)%nat -> exists el rest value,
        qsa (page b (clock b + Z.of_nat i * step)) sel = el :: rest /\
        lookup_attribute attr (attributes el) = Some value) ->
    (exists el rest,
        qsa (page b (clock b + Z.of_nat k * step)) sel = el :: rest /\
        lookup_attribute attr (attributes el) = None) ->
    let r := waitUntilAttributeDoesNotExists sel_matches poll_ms fuel
               DEFAULT_TIMEOUT sel attr ms b in
    fst r = Resolved true /\
    clock (snd r) = clock b + (Z.of_nat k + 1) * step /\
    page (snd r) = page b.
Proof.
  intros fuel k sel attr ms b Hpos Hbound Hfuel Hfalse Htrue.
  apply (attribute_wait_resolves fuel
           (fun v => Js.strict_equals v None) sel attr
           (Js.or_number ms DEFAULT_TIMEOUT) _ k b Hpos Hbound Hfuel).
  - intros i Hi. destruct (Hfalse i Hi) as (el & rest & value & Hq & He).
    exists el, rest. split; [exact Hq|]. now rewrite He.
  - destruct Htrue as (el & rest & Hq & He).
    exists el, rest. split; [exact Hq|]. now rewrite He.
Qed.

(** X4. When the first match never reads the awaited value,
    [waitUntilAttributeEquals] rejects with the driver's timeout error: the
    text is the helper's message followed by the driver's, and the wait has
    lasted at least the bound in force (the argument, or the default when it
    is omitted or 0) and less than one polling step more. *)
Theorem waitUntilAttributeEquals_times_out :
  forall (fuel : nat) (sel attr value : string) (ms : option Z) (b : browser),
    0 < Js.or_number ms DEFAULT_TIMEOUT ->
    Js.or_number ms DEFAULT_TIMEOUT <= Z.of_nat fuel * step ->
    (forall t, exists el rest,
        qsa (page b t) sel = el :: rest /\
        lookup_attribute attr (attributes el) <> Some value) ->
    let r := waitUntilAttributeEquals sel_matches poll_ms fuel DEFAULT_TIMEOUT
               sel attr value ms b in
    exists elapsed,
      fst r = Rejected (TimeoutError (timeout_text
                (Some (attr ++ " does not equal " ++ value ++ " after "
                       ++ Js.to_string ms ++ " milliseconds")%string)
                elapsed)) /\
      Js.or_number ms DEFAULT_TIMEOUT <= elapsed
        < Js.or_number ms DEFAULT_TIMEOUT + step /\
      clock (snd r) = clock b + elapsed.
Proof.
  intros fuel sel attr value ms b Hpos Hfuel Hpage.
  apply (attribute_wait_times_out fuel
           (fun v => Js.strict_equals v (Some value)) sel attr
           (Js.or_number ms DEFAULT_TIMEOUT) _ b Hpos Hfuel).
  intro t. destruct (Hpage t) as (el & rest & Hq & Hne).
  exists el, rest. split; [exact Hq|]. now apply strict_equals_false.
Qed.

(** X5. When the first match never carries the attribute,
    [waitUntilAttributeExists] rejects with the driver's timeout error after
    at least the bound in force. *)
Theorem waitUntilAttributeExists_times_out :
  forall (fuel : nat) (sel attr : string) (ms : option Z) (b : browser),
    0 < Js.or_number ms DEFAULT_TIMEOUT ->
    Js.or_number ms DEFAULT_TIMEOUT <= Z.of_nat fuel * step ->
    (forall t, exists el rest,
        qsa (page b t) sel = el :: rest /\
        lookup_attribute attr (attributes el) = None) ->
    let r := waitUntilAttributeExists sel_matches poll_ms fuel DEFAULT_TIMEOUT
               sel attr ms b in
    exists elapsed,
      fst r = Rejected (TimeoutError (timeout_text
                (Some (attr ++ " does not exists after "
                       ++ Js.to_string ms ++ " milliseconds")%string)
                elapsed)) /\
      Js.or_number ms DEFAULT_TIMEOUT <= elapsed
        < Js.or_number ms DEFAULT_TIMEOUT + step /\
      clock (snd r) = clock b + elapsed.
Proof.
  intros fuel sel attr ms b Hpos Hfuel Hpage.
  apply (attribute_wait_times_out fuel
           (fun v => negb (Js.strict_equals v None)) sel attr
           (Js.or_number ms DEFAULT_TIMEOUT) _ b Hpos Hfuel).
  intro t. destruct (Hpage t) as (el & rest & Hq & He).
  exists el, rest. split; [exact Hq|]. now rewrite He.
Qed.

(** X6. When the first match keeps the attribute,
    [waitUntilAttributeDoesNotExists] rejects with the driver's timeout error
    after at least the bound in force. *)
Theorem waitUntilAttributeDoesNotExists_times_out :
  forall (fuel : nat) (sel attr : string) (ms : option Z) (b : browser),
    0 < Js.or_number ms DEFAULT_TIMEOUT ->
    Js.or_number ms DEFAULT_TIMEOUT <= Z.of_nat fuel * step ->
    (forall t, exists el rest value,
        qsa (page b t) sel = el :: rest /\
        lookup_attribute attr (attributes el) = Some value) ->
    let r := waitUntilAttributeDoesNotExists sel_matches poll_ms fuel
               DEFAULT_TIMEOUT sel attr ms b in
    exists elapsed,
      fst r = Rejected (TimeoutError (timeout_text
                (Some (attr ++ " still exists after "
                       ++ Js.to_string ms ++ " milliseconds")%string)
                elapsed)) /\
      Js.or_number ms DEFAULT_TIMEOUT <= elapsed
        < Js.or_number ms DEFAULT_TIMEOUT + step /\
      clock (snd r) = clock b + elapsed.
Proof.
  intros fuel sel attr ms b Hpos Hfuel Hpage.
  apply (attribute_wait_times_out fuel
           (fun v => Js.strict_equals v None) sel attr
           (Js.or_number ms DEFAULT_TIMEOUT) _ b Hpos Hfuel).
  intro t. destruct (Hpage t) as (el & rest & value & Hq & He).
  exists el, rest. split; [exact Hq|]. now rewrite He.
Qed.

(** X7. [waitUntilAttributeEquals] and [waitUntilAttributeExists] do not
    wait for a missing element: when the selector matches nothing at the
    first evaluation, both reject at once with the driver's no-such-element
    error, whatever the bound (one the driver accepts). *)
Theorem attribute_waiters_reject_on_missing_element :
  forall (fuel : nat) (sel attr value : string) (ms : option Z) (b : browser),
    0 <= Js.or_number ms DEFAULT_TIMEOUT ->
    qsa (current_document b) sel = [] ->
    fst (waitUntilAttributeEquals sel_matches poll_ms (S fuel) DEFAULT_TIMEOUT
           sel attr value ms b)
    = Rejected (NoSuchElementError sel) /\
    fst (waitUntilAttributeExists sel_matches poll_ms (S fuel) DEFAULT_TIMEOUT
           sel attr ms b)
    = Rejected (NoSuchElementError sel).
Proof.
  intros fuel sel attr value ms b Hpos Hnone. split.
  - apply (attribute_wait_missing_element fuel
             (fun v => Js.strict_equals v (Some value)) sel attr _ _ b Hpos Hnone).
  - apply (attribute_wait_missing_element fuel
             (fun v => negb (Js.strict_equals v None)) sel attr _ _ b Hpos Hnone).
Qed.

End Waiting.

Section Strings.

Lemma append_assoc (a b c : string) :
  ((a ++ b) ++ c = a ++ (b ++ c))%string.
Proof. induction a as [|x a IH]; simpl; [reflexivity | now rewrite IH]. Qed.

Lemma append_empty_r (a : string) : (a ++ "")%string = a.
Proof. induction a as [|x a IH]; simpl; [reflexivity | now rewrite IH]. Qed.

Lemma rev_onto_append s : forall acc,
  Js.rev_onto s acc = (Js.reverse s ++ acc)%string.
Proof.
  unfold Js.reverse. induction s as [|c s IH]; intro acc; simpl.
  - reflexivity.
  - rewrite IH, (IH (String c "")), append_assoc. reflexivity.
Qed.

Lemma reverse_cons c s :
  Js.reverse (String c s) = (Js.reverse s ++ String c "")%string.
Proof. unfold Js.reverse at 1. simpl. apply rev_onto_append. Qed.

Lemma reverse_append a b :
  Js.reverse (a ++ b) = (Js.reverse b ++ Js.reverse a)%string.
Proof.
  induction a as [|c a IH]; simpl.
  - now rewrite append_empty_r.
  - now rewrite !reverse_cons, IH, append_assoc.
Qed.

Lemma reverse_involutive s : Js.reverse (Js.reverse s) = s.
Proof.
  induction s as [|c s IH]; [reflexivity|].
  now rewrite reverse_cons, reverse_append, IH.
Qed.

Lemma trimStart_lead_ok s : lead_ok (Js.trimStart s).
Proof.
  induction s as [|c s IH]; simpl; [exact I|].
  destruct (Js.is_white_space c) eqn:E; [exact IH | exact E].
Qed.

Lemma trimStart_fixed s : lead_ok s -> Js.trimStart s = s.
Proof. destruct s as [|c s]; simpl; [reflexivity|]. now intros ->. Qed.

Lemma trimStart_suffix s : exists w, s = (w ++ Js.trimStart s)%string.
Proof.
  induction s as [|c s [w IH]]; simpl.
  - now exists "".
  - destruct (Js.is_white_space c).
    + exists (String c w). simpl. now rewrite <- IH.
    + now exists "".
Qed.

Lemma lead_ok_prefix a b : lead_ok (a ++ b) -> lead_ok a.
Proof. destruct a; simpl; [intros _; exact I | trivial]. Qed.

Lemma trim_lead_ok s : lead_ok (Js.trim s).
Proof.
  unfold Js.trim, Js.trimEnd.
  destruct (trimStart_suffix (Js.reverse (Js.trimStart s))) as [w Hw].
  apply (lead_ok_prefix _ (Js.reverse w)).
  rewrite <- reverse_append, <- Hw, reverse_involutive.
  apply trimStart_lead_ok.
Qed.

(** Trimming a trimmed string changes nothing. *)
Lemma trim_idempotent s : Js.trim (Js.trim s) = Js.trim s.
Proof.
  unfold Js.trim at 1. rewrite (trimStart_fixed _ (trim_lead_ok s)).
  unfold Js.trimEnd, Js.trim, Js.trimEnd.
  rewrite reverse_involutive.
  now rewrite (trimStart_fixed _ (trimStart_lead_ok _)).
Qed.

End Strings.

Section Effects.

Variable sel_matches : string -> node -> bool.
Variable web : string -> Z -> document.
Variable net_error : string -> option string.
Variable poll_ms : positive.
Variable DEFAULT_TIMEOUT : Z.

Local Open Scope list_scope.
Local Abbreviation qsa := (querySelectorAll sel_matches).
Local Abbreviation step := (Z.pos poll_ms).

Lemma filter_keep_all {A} (l : list A) : filter (fun _ => true) l = l.
Proof. induction l as [|x l IH]; simpl; [reflexivity | now rewrite IH]. Qed.

Lemma only_logged_refl b : only_logged b b.
Proof. repeat split. Qed.

Lemma only_logged_record_call c b : only_logged b (record_call c b).
Proof. repeat split. Qed.

Lemma same_content_trans a b c :
  same_content a b -> same_content b c -> same_content a c.
Proof.
  intros (H1 & H2 & H3 & H4 & H5) (K1 & K2 & K3 & K4 & K5).
  repeat split; congruence.
Qed.

Lemma same_content_set_clock t b : same_content b (set_clock t b).
Proof. repeat split. Qed.

Lemma getAttributeValue_only_logged sel attr b :
  only_logged b (snd (getAttributeValue sel_matches sel attr b)).
Proof.
  unfold getAttributeValue, bind, driver_findElement.
  destruct (qsa _ sel); repeat split.
Qed.

Lemma attribute_condition_only_logged test sel attr b :
  only_logged b (snd (attribute_condition sel_matches test sel attr b)).
Proof.
  unfold attribute_condition, getAttributeValue, bind, driver_findElement.
  destruct (qsa _ sel); repeat split.
Qed.

(** A wait on a condition that only logs keeps the content of the session
    and never turns the clock back. *)
Lemma pollCondition_content {A} (truthy : A -> bool) (cond : async A)
    (start timeout : Z) (message : option string) :
  (forall x, only_logged x (snd (cond x))) ->
  forall n b,
    let b' := snd (pollCondition poll_ms n truthy cond start timeout message b) in
    same_content b b' /\ clock b <= clock b'.
Proof.
  intros Hcond. induction n as [|n IH]; intro b; cbv zeta.
  - cbn. split; [repeat split | lia].
  - cbn [pollCondition]. specialize (Hcond b).
    destruct (cond b) as [[v|e|] b1]; cbn [snd] in *;
      destruct Hcond as [Hsame Hclk]; try (split; [exact Hsame | lia]).
    destruct (truthy v).
    { cbn [snd]. split; [|cbn; lia].
      eapply same_content_trans; [exact Hsame | apply same_content_set_clock]. }
    destruct (_ && _).
    { cbn [snd]. split; [|cbn; lia].
      eapply same_content_trans; [exact Hsame | apply same_content_set_clock]. }
    destruct (IH (set_clock (clock b1 + step) b1)) as [Hs Hc].
    split.
    + eapply same_content_trans; [exact Hsame|].
      eapply same_content_trans; [apply same_content_set_clock | exact Hs].
    + cbn [set_clock clock] in Hc. lia.
Qed.

Lemma attribute_wait_content fuel test sel attr timeout message b :
  let b' := snd (attribute_wait sel_matches poll_ms fuel test sel attr timeout
                   message b) in
  same_content b b' /\ clock b <= clock b'.
Proof.
  cbv zeta. unfold attribute_wait, driver_wait.
  destruct (timeout <? 0); [cbn; split; [repeat split | lia]|].
  match goal with
  | |- context [pollCondition poll_ms fuel ?t ?c ?st ?to ?m ?x] =>
      destruct (pollCondition_content t c st to m
                  (attribute_condition_only_logged test sel attr) fuel x)
        as [Hs Hc]
  end.
  split; [|exact Hc].
  eapply same_content_trans; [|exact Hs]. repeat split.
Qed.

(** X8. [getAttributeValue] consults the first match of the selector only:
    it rejects with the no-such-element error exactly when nothing matches,
    and otherwise resolves with the attribute of the first match, [null]
    when that element lacks it, whatever later matches carry. *)
Theorem getAttributeValue_reads_first_match :
  forall (sel attr : string) (b : browser),
    (qsa (current_document b) sel = [] /\
     fst (getAttributeValue sel_matches sel attr b)
     = Rejected (NoSuchElementError sel)) \/
    (exists el rest,
        qsa (current_document b) sel = el :: rest /\
        fst (getAttributeValue sel_matches sel attr b)
        = Resolved (lookup_attribute attr (attributes el))).
Proof.
  intros sel attr b.
  unfold getAttributeValue, bind, driver_findElement.
  rewrite current_document_record_call.
  destruct (qsa (current_document b) sel) as [|el rest].
  - left. split; reflexivity.
  - right. exists el, rest. split; reflexivity.
Qed.

(** X9. The queries only read: [getAttributeValue],
    [getElementsContainingText], [getFirstElementContainingText] and the two
    pseudo-element queries leave the page, the clock, the cookies, both
    storages and the clicks as they were. *)
Theorem queries_only_read :
  forall (sel attr text : string) (b : browser),
    only_logged b (snd (getAttributeValue sel_matches sel attr b)) /\
    only_logged b (snd (getElementsContainingText sel_matches sel text b)) /\
    only_logged b (snd (getFirstElementContainingText sel_matches sel text b)) /\
    only_logged b (snd (getPseudoElementBeforeValue sel_matches sel b)) /\
    only_logged b (snd (getPseudoElementAfterValue sel_matches sel b)).
Proof.
  intros sel attr text b.
  split; [apply getAttributeValue_only_logged|].
  repeat split.
Qed.

(** X10. The three attribute waiters only watch: however the wait ends, the
    page, the cookies, both storages and the clicks are as they were, and
    the clock has not gone back. *)
Theorem attribute_waiters_only_watch :
  forall (fuel : nat) (sel attr value : string) (ms : option Z) (b : browser),
    let after (w : async bool) := snd (w b) in
    let equals := waitUntilAttributeEquals sel_matches poll_ms fuel
                    DEFAULT_TIMEOUT sel attr value ms in
    let present := waitUntilAttributeExists sel_matches poll_ms fuel
                     DEFAULT_TIMEOUT sel attr ms in
    let absent := waitUntilAttributeDoesNotExists sel_matches poll_ms fuel
                    DEFAULT_TIMEOUT sel attr ms in
    (same_content b (after equals) /\ clock b <= clock (after equals)) /\
    (same_content b (after present) /\ clock b <= clock (after present)) /\
    (same_content b (after absent) /\ clock b <= clock (after absent)).
Proof.
  intros fuel sel attr value ms b. cbv zeta.
  split; [|split].
  - apply (attribute_wait_content fuel
             (fun v => Js.strict_equals v (Some value)) sel attr).
  - apply (attribute_wait_content fuel
             (fun v => negb (Js.strict_equals v None)) sel attr).
  - apply (attribute_wait_content fuel
             (fun v => Js.strict_equals v None) sel attr).
Qed.

Lemma content_of_set_content c b : content_of (set_content c b) = c.
Proof. now destruct c. Qed.

(** X11. Whatever [textToMatch] is, [clickHiddenElement] clicks matches of
    the selector only, in document order (the new clicks are the matches that
    pass some test, appended to the earlier ones), and changes the session
    through those clicks only: the page, the cookies and the storages are
    afterwards what the site makes of the clicks received, in that order,
    and the clock has not moved. *)
Theorem clickHiddenElement_clicks_matches_only :
  forall (sel : string) (text : option string) (b : browser),
    let b' := snd (clickHiddenElement sel_matches sel text b) in
    exists keep : node -> bool,
      let received := filter keep (qsa (current_document b) sel) in
      clicked b' = clicked b ++ received /\
      content_of b'
      = fold_left (fun c el => on_click b el c) received (content_of b) /\
      clock b' = clock b.
Proof.
  intros sel text b. cbv zeta.
  unfold clickHiddenElement, driver_findElements_js.
  cbn [run_script fst snd]. unfold clickElementInDom.
  rewrite current_document_record_call.
  destruct (Js.truthy_string text) eqn:Ht.
  - destruct text as [c|]; [|discriminate].
    exists (fun el => String.eqb (txtProp (current_document b) el) c).
    rewrite clickElementInDom_loop_with_content
      by (intros ->; discriminate).
    unfold react. rewrite content_of_set_content.
    repeat split; reflexivity.
  - exists (fun _ => true).
    rewrite clickElementInDom_loop_without_content by exact Ht.
    rewrite filter_keep_all.
    unfold react. rewrite content_of_set_content.
    repeat split; reflexivity.
Qed.

(** X12. For [getElementsContainingText] the white space around
    [textToMatch] does not count: the text and its trimmed form find the
    same elements. *)
Theorem getElementsContainingText_ignores_padding :
  forall (sel text : string) (b : browser),
    fst (getElementsContainingText sel_matches sel (Js.trim text) b)
    = fst (getElementsContainingText sel_matches sel text b).
Proof.
  intros sel text b.
  unfold getElementsContainingText, driver_findElements_js.
  cbn [run_script fst]. unfold findElementsContainingText.
  rewrite !findElementsContainingText_loop_filter.
  now rewrite trim_idempotent.
Qed.


(** X14. When the selector matches, the pseudo-element queries answer for
    the first match: they resolve with the [content] of its [:before]
    (resp. [:after]) computed style, and with the empty string when the
    browser gives no style object. *)
Theorem getPseudoElementValue_of_first_match :
  forall (sel : string) (b : browser) (el : node) (rest : list node),
    qsa (current_document b) sel = el :: rest ->
    fst (getPseudoElementBeforeValue sel_matches sel b)
    = Resolved (SVString (match before_style el with
                          | Some content => content
                          | None => ""
                          end)) /\
    fst (getPseudoElementAfterValue sel_matches sel b)
    = Resolved (SVString (match after_style el with
                          | Some content => content
                          | None => ""
                          end)).
Proof.
  intros sel b el rest Hq.
  unfold getPseudoElementBeforeValue, getPseudoElementAfterValue,
    driver_executeScript.
  cbn [run_script fst].
  unfold getBeforeContentValue, getAfterContentValue, querySelector.
  rewrite !current_document_record_call, Hq. split; reflexivity.
Qed.

(** X15. The two clearings are separate and repeatable: [clearCookies]
    leaves both storages alone, [clearStorages] leaves the cookies alone,
    neither touches the page, the clock or the clicks, and clearing again
    after [clearCookiesAndStorages] resolves and finds everything still
    empty. *)
Theorem clearings_are_separate_and_repeatable :
  forall b : browser,
    let c := snd (clearCookies b) in
    let s := snd (clearStorages sel_matches b) in
    let cs := snd (clearCookiesAndStorages sel_matches b) in
    let again := clearCookiesAndStorages sel_matches cs in
    (cookies c = [] /\ localStorage c = localStorage b /\
     sessionStorage c = sessionStorage b) /\
    (cookies s = cookies b /\ localStorage s = [] /\ sessionStorage s = []) /\
    (page cs = page b /\ clock cs = clock b /\ clicked cs = clicked b) /\
    fst again = Resolved tt /\
    cookies (snd again) = [] /\ localStorage (snd again) = [] /\
    sessionStorage (snd again) = [].
Proof. intro b. cbv zeta. repeat split. Qed.

(** *** Loading a page *)

Lemma loadPage_unfold fuel url waitInSeconds :
  loadPage sel_matches web net_error poll_ms fuel DEFAULT_TIMEOUT url
    waitInSeconds
  = (driver_get web net_error url ;;
     driver_wait poll_ms fuel (UntilElementLocated (ByCss "body")) is_some
       (until_elementLocated_fn sel_matches "body")
       (loadPage_bound DEFAULT_TIMEOUT waitInSeconds) None ;;
     ret tt).
Proof. reflexivity. Qed.

Lemma until_elementLocated_observes selector x :
  observes (until_elementLocated_fn sel_matches selector) x
           (querySelector sel_matches (current_document x) selector).
Proof. exists x. repeat split. Qed.

(** X16. For a url the driver loads, [loadPage] resolves as soon as the page
    of the url shows a [body]: after [k] evaluations on a page without one,
    one polling step apart, the evaluation that locates it resolves the call,
    provided the bound, if any, is not reached before; the session is then
    on the page of the url. *)
Theorem loadPage_resolves_when_body_appears :
  forall (fuel k : nat) (url : string) (waitInSeconds : option Z)
         (b : browser),
    let bound := loadPage_bound DEFAULT_TIMEOUT waitInSeconds in
    net_error url = None ->
    0 <= bound ->
    bound = 0 \/ Z.of_nat k * step < bound ->
    (k < fuel)%nat ->
    (forall i, (i < k)%nat ->
               qsa (web url (clock b + Z.of_nat i * step)) "body" = []) ->
    qsa (web url (clock b + Z.of_nat k * step)) "body" <> [] ->
    let r := loadPage sel_matches web net_error poll_ms fuel DEFAULT_TIMEOUT
               url waitInSeconds b in
    fst r = Resolved tt /\
    clock (snd r) = clock b + (Z.of_nat k + 1) * step /\
    page (snd r) = web url.
Proof.
  intros fuel k url ws b bound Hup Hpos Hbound Hfuel Hfalse Htrue r.
  subst r. rewrite loadPage_unfold. fold bound.
  unfold bind, driver_get, driver_wait. rewrite Hup. cbv beta.
  destruct (Z.ltb_spec bound 0) as [|_]; [lia|].
  set (b0 := record_call (CmdWait _ _ _) _).
  assert (Hpage0 : page b0 = web url) by reflexivity.
  assert (Hclk0 : clock b0 = clock b) by reflexivity.
  destruct (pollCondition_resolves poll_ms is_some
              (until_elementLocated_fn sel_matches "body") (clock b0) bound
              (if Js.truthy_string None then None
               else description (UntilElementLocated (ByCss "body")))
              (web url) k fuel b0 Hpage0) as (v & b' & Hr & Hv & Hp & Hc).
  - intros i x Hi Hx Hclk.
    exists (querySelector sel_matches (current_document x) "body").
    split; [apply until_elementLocated_observes|].
    unfold current_document, querySelector.
    rewrite Hx, Hclk, Hclk0, (Hfalse i Hi). reflexivity.
  - intros x Hx Hclk.
    exists (querySelector sel_matches (current_document x) "body").
    split; [apply until_elementLocated_observes|].
    unfold current_document, querySelector. rewrite Hx, Hclk, Hclk0.
    destruct (qsa _ "body"); [contradiction | reflexivity].
  - destruct Hbound as [-> | Hlt]; [now left | right].
    replace (clock b0 - clock b0) with 0 by lia. lia.
  - exact Hfuel.
  - rewrite Hr. cbn [ret fst snd]. rewrite Hc, Hclk0. repeat split; assumption.
Qed.

Lemma until_elementLocated_never_truthy selector (p : Z -> document) :
  (forall t, qsa (p t) selector = []) ->
  never_truthy (fun b => page b = p) is_some
               (until_elementLocated_fn sel_matches selector).
Proof.
  intros Hpage b Hb. unfold until_elementLocated_fn.
  eexists _, _. split; [reflexivity|].
  repeat split; [|intro t; exact Hb].
  unfold current_document, querySelector. now rewrite Hb, Hpage.
Qed.

(** X17. When the driver loads the url and its page never shows a [body]
    (an SVG document, say), [loadPage] rejects with the driver's timeout
    error, whose text begins with the description of the located-element
    condition, after at least the bound in force ([waitInSeconds * 1000], or
    the default) and less than one polling step more. *)
Theorem loadPage_times_out :
  forall (fuel : nat) (url : string) (waitInSeconds : option Z) (b : browser),
    let bound := loadPage_bound DEFAULT_TIMEOUT waitInSeconds in
    net_error url = None ->
    0 < bound ->
    bound <= Z.of_nat fuel * step ->
    (forall t, qsa (web url t) "body" = []) ->
    let r := loadPage sel_matches web net_error poll_ms fuel DEFAULT_TIMEOUT
               url waitInSeconds b in
    exists elapsed,
      fst r = Rejected (TimeoutError (timeout_text
                (Some "Waiting for element to be located By(css selector, body)")
                elapsed)) /\
      bound <= elapsed < bound + step /\
      clock (snd r) = clock b + elapsed.
Proof.
  intros fuel url ws b bound Hup Hpos Hfuel Hpage r.
  subst r. rewrite loadPage_unfold. fold bound.
  unfold bind, driver_get, driver_wait. rewrite Hup. cbv beta.
  destruct (Z.ltb_spec bound 0) as [|_]; [lia|].
  set (b0 := record_call (CmdWait _ _ _) _).
  destruct (pollCondition_times_out_clock poll_ms (fun x => page x = web url)
              is_some (until_elementLocated_fn sel_matches "body")
              (clock b0) bound
              (if Js.truthy_string None then None
               else description (UntilElementLocated (ByCss "body")))
              Hpos (until_elementLocated_never_truthy "body" (web url) Hpage)
              fuel b0 eq_refl) as (elapsed & b' & Hrun & Hel & Hclk & _).
  { lia. }
  { replace (clock b0 - clock b0) with 0 by lia. lia. }
  rewrite Hrun. cbn [fst snd]. exists elapsed.
  repeat split; try lia. exact Hclk.
Qed.

End Effects.

(** ** Properties of the hooks *)

Section HookProperties.

Variable sel_matches : string -> node -> bool.
Variable path_resolve : string -> string -> string.
Variable cwd : string.
Variable isFileSync : string -> bool.
Variable existsSync : string -> bool.
Variable launch : nat -> World.driver_module -> browser.
Variable cfg : World.settings.

Local Open Scope list_scope.
Local Abbreviation strategy := (World.browserTeardownStrategy cfg).
Local Abbreviation Before :=
  (World.Before path_resolve cwd isFileSync launch cfg).
Local Abbreviation After := (World.After sel_matches cfg).
Local Abbreviation AfterAll :=
  (World.AfterAll path_resolve existsSync cfg).
Local Abbreviation teardownBrowser := (World.teardownBrowser sel_matches cfg).
Local Abbreviation closeBrowser := (World.closeBrowser cfg).
Local Abbreviation getDriverInstance :=
  (World.getDriverInstance path_resolve cwd isFileSync launch cfg).
Local Abbreviation run_scenario :=
  (World.run_scenario sel_matches path_resolve cwd isFileSync launch cfg).
Local Abbreviation run_scenarios :=
  (World.run_scenarios sel_matches path_resolve cwd isFileSync launch cfg).
Local Abbreviation can_launch :=
  (World.can_launch path_resolve cwd isFileSync cfg).

(** With a driver to give, [getDriverInstance] gives the next one, live, and
    built by the firefox module exactly when the browser is firefox. *)
Lemma getDriverInstance_launches w :
  can_launch = true ->
  exists m,
    World.is_firefox m = String.eqb (World.browserName cfg) "firefox" /\
    getDriverInstance w
    = (inr {| World.id := World.created w; World.made_by := m;
              World.session := launch (World.created w) m |},
       {| World.driver := World.driver w; World.eyes := World.eyes w;
          World.created := S (World.created w);
          World.events := World.events w
                          ++ [World.EvNewDriver (World.created w) m];
          World.state := fun k => if Nat.eqb k (World.created w)
                                  then World.Live else World.state w k |}).
Proof.
  unfold World.can_launch, World.getDriverInstance. intro H.
  assert (Hname : (if Js.truthy_string (Some (World.browserName cfg))
                   then World.browserName cfg else "")
                  = World.browserName cfg).
  { simpl. destruct (String.eqb_spec (World.browserName cfg) "");
      [now symmetry | reflexivity]. }
  rewrite Hname.
  destruct (String.eqb (World.browserName cfg) "firefox");
    [exists World.FireFoxDriver; split; reflexivity|].
  destruct (String.eqb (World.browserName cfg) "electron");
    [exists World.ElectronDriver; split; reflexivity|].
  destruct (String.eqb (World.browserName cfg) "chrome");
    [exists World.ChromeDriver; split; reflexivity|].
  simpl in H. rewrite H.
  exists (World.RequiredFile (path_resolve cwd (World.browserName cfg))).
  split; reflexivity.
Qed.

(** X18. When [browserName] is none of the built-in names and resolves to no
    file, [Before] on a world without driver rejects with the missing-file
    error and creates nothing; the [After] hook of that scenario then meets
    the [null] driver, and is fulfilled only if screenshots are off and the
    teardown strategy is 'none'. *)
Theorem missing_driver_file_fails_both_hooks :
  forall w : World.world,
    can_launch = false ->
    World.driver w = None ->
    Before w
    = (World.Failed
         (World.Thrown ("Could not find driver file: "
                        ++ path_resolve cwd (World.browserName cfg))%string),
       w) /\
    (fst (After true w) = World.Fulfilled <->
     World.noScreenshot cfg = true /\ strategy = "none"%string) /\
    snd (After true w) = w.
Proof.
  intros w Hcan Hnone.
  unfold World.can_launch in Hcan.
  apply orb_false_iff in Hcan as [Hcan Hfile].
  apply orb_false_iff in Hcan as [Hcan Hchrome].
  apply orb_false_iff in Hcan as [Hfirefox Helectron].
  split; [|split].
  - unfold World.Before, World.getDriverInstance. rewrite Hnone. cbn [is_some negb orb].
    assert (Hname : (if Js.truthy_string (Some (World.browserName cfg))
                     then World.browserName cfg else "")
                    = World.browserName cfg).
    { simpl. destruct (String.eqb_spec (World.browserName cfg) "");
        [now symmetry | reflexivity]. }
    rewrite Hname, Hfirefox, Helectron, Hchrome, Hfile. reflexivity.
  - unfold World.After, World.teardownBrowser, World.closeBrowser,
      World.helpers_clearCookiesAndStorages.
    rewrite Hnone. cbn [andb].
    destruct (World.noScreenshot cfg); cbn [negb fst].
    + destruct (String.eqb_spec strategy "none") as [->|Hne].
      * split; [now split | reflexivity].
      * destruct (String.eqb strategy "clear"); cbn [fst];
          (split; [discriminate | intros [_ H]; contradiction]).
    + split; [discriminate | intros [H _]; discriminate].
  - unfold World.After, World.teardownBrowser, World.closeBrowser,
      World.helpers_clearCookiesAndStorages.
    rewrite Hnone. cbn [andb].
    destruct (World.noScreenshot cfg); cbn [negb snd]; [|reflexivity].
    destruct (String.eqb strategy "none"); [reflexivity|].
    destruct (String.eqb strategy "clear"); reflexivity.
Qed.

Ltac simpl_world :=
  repeat (progress
            (cbv beta iota zeta delta
                 [fst snd World.run_steps World.set_driver World.set_eyes
                  World.emit World.with_session World.driver World.eyes
                  World.created World.events World.state World.set_state
                  World.refusal World.driver_close World.driver_quit
                  World.driver_takeScreenshot is_some negb andb orb];
             cbn [World.id World.made_by World.session];
             rewrite ?Nat.eqb_refl)).

Ltac crunch_hooks :=
  simpl_world;
  repeat (match goal with
          | |- context [if ?c then _ else _] =>
              lazymatch c with
              | context [if _ then _ else _] => fail
              | _ => destruct c eqn:?
              end
          | |- context [match World.eyesKey cfg with _ => _ end] =>
              destruct (World.eyesKey cfg) eqn:?
          | |- context [match ?s with
                        | World.Live => _
                        | World.WindowClosed => _
                        | World.SessionEnded => _
                        end] =>
              destruct s eqn:?
          end; simpl_world).

(** X19. Under the 'always' strategy every scenario gets a driver of its
    own: whatever the world before, the steps run on the session of a driver
    created by the scenario's [Before] hook, and that driver is closed by
    its [After] hook. *)
Theorem always_gives_each_scenario_a_new_driver :
  forall (sc : World.scenario) (w : World.world),
    strategy = "always"%string ->
    can_launch = true ->
    let w' := run_scenario sc w in
    exists m,
      World.driver w'
      = Some {| World.id := World.created w; World.made_by := m;
                World.session :=
                  World.steps sc (launch (World.created w) m) |} /\
      World.created w' = S (World.created w) /\
      In (World.EvNewDriver (World.created w) m) (World.events w') /\
      In (World.EvClose (World.created w)) (World.events w').
Proof.
  clear existsSync.
  intros sc w Hs Hcan. cbv zeta.
  destruct (getDriverInstance_launches w Hcan) as [m [_ Hm]]. exists m.
  unfold World.run_scenario, World.Before. rewrite Hm, Hs.
  cbn [String.eqb Ascii.eqb Bool.eqb orb andb].
  rewrite orb_true_r.
  unfold World.getEyesInstance, World.After, World.teardownBrowser,
    World.closeBrowser.
  rewrite Hs. cbn [String.eqb Ascii.eqb Bool.eqb].
  crunch_hooks;
    (repeat split; try reflexivity;
     repeat rewrite in_app_iff; cbn [In]; tauto).
Qed.

Lemma helpers_clearCookiesAndStorages_value d ey cr ev st :
  let w := {| World.driver := Some d; World.eyes := ey; World.created := cr;
              World.events := ev; World.state := st |} in
  World.helpers_clearCookiesAndStorages sel_matches w
  = match World.refusal (st (World.id d)) with
    | Some f => (World.Failed f, w)
    | None =>
        (World.Fulfilled,
         World.set_driver
           (Some (World.with_session d
                    (snd (clearCookiesAndStorages sel_matches
                            (World.session d)))))
           w)
    end.
Proof.
  unfold World.helpers_clearCookiesAndStorages. cbn.
  now destruct (st (World.id d)).
Qed.

(** X20. Under the 'none' strategy a scenario inherits the session as the
    previous one left it and hands it on as its own steps leave it: no
    driver is created, none is closed, and nothing is cleared. *)
Theorem none_hands_the_session_on :
  forall (sc : World.scenario) (w : World.world) (d : World.instance),
    strategy = "none"%string ->
    World.driver w = Some d ->
    let w' := run_scenario sc w in
    World.driver w'
    = Some (World.with_session d (World.steps sc (World.session d))) /\
    World.created w' = World.created w /\
    (forall n, In (World.EvClose n) (World.events w') ->
               In (World.EvClose n) (World.events w)) /\
    (forall n m, In (World.EvNewDriver n m) (World.events w') ->
                 In (World.EvNewDriver n m) (World.events w)).
Proof.
  clear existsSync.
  intros sc w d Hs Hd. cbv zeta.
  destruct w as [dr ey cr ev st]. cbn [World.driver] in Hd. subst dr.
  unfold World.run_scenario, World.Before. rewrite Hs. simpl_world.
  cbn [String.eqb Ascii.eqb Bool.eqb orb andb is_some negb].
  unfold World.getEyesInstance, World.After, World.teardownBrowser.
  rewrite Hs. cbn [String.eqb Ascii.eqb Bool.eqb].
  crunch_hooks;
    (repeat split; try reflexivity; intros;
     repeat rewrite in_app_iff in *; cbn [In] in *;
     intuition discriminate).
Qed.

(** X21. Under the 'clear' strategy a scenario keeps the driver it found,
    which answers, and leaves its session with no cookie and both storages
    empty, on the page and with the clicks its steps left; no driver is
    created or closed. *)
Theorem clear_empties_cookies_and_storages :
  forall (sc : World.scenario) (w : World.world) (d : World.instance),
    strategy = "clear"%string ->
    World.driver w = Some d ->
    World.state w (World.id d) = World.Live ->
    let w' := run_scenario sc w in
    exists b',
      World.driver w' = Some (World.with_session d b') /\
      cookies b' = [] /\ localStorage b' = [] /\ sessionStorage b' = [] /\
      page b' = page (World.steps sc (World.session d)) /\
      clicked b' = clicked (World.steps sc (World.session d)) /\
      World.created w' = World.created w /\
      (forall n, In (World.EvClose n) (World.events w') ->
                 In (World.EvClose n) (World.events w)).
Proof.
  clear existsSync.
  intros sc w d Hs Hd Hlive. cbv zeta.
  exists (snd (clearCookiesAndStorages sel_matches
                 (World.steps sc (World.session d)))).
  destruct w as [dr ey cr ev st]. cbn [World.driver World.state] in Hd, Hlive.
  subst dr.
  unfold World.run_scenario, World.Before. rewrite Hs. simpl_world.
  cbn [String.eqb Ascii.eqb Bool.eqb orb andb is_some negb].
  unfold World.getEyesInstance, World.After, World.teardownBrowser.
  rewrite Hs. cbn [String.eqb Ascii.eqb Bool.eqb].
  simpl_world. rewrite ?Hlive.
  crunch_hooks; try congruence;
    rewrite helpers_clearCookiesAndStorages_value;
    crunch_hooks; try congruence;
    (repeat split; try reflexivity; intros;
     repeat rewrite in_app_iff in *; cbn [In] in *;
     intuition discriminate).
Qed.

(** When the strategy is not 'always', [Before] on a world with a driver
    keeps it and creates none. *)
Lemma Before_keeps_the_driver w d :
  strategy <> "always"%string ->
  World.driver w = Some d ->
  fst (Before w) = World.Fulfilled /\
  World.driver (snd (Before w)) = World.driver w /\
  World.created (snd (Before w)) = World.created w /\
  World.state (snd (Before w)) = World.state w.
Proof.
  intros Ha Hd. apply String.eqb_neq in Ha.
  destruct w as [dr ey cr ev st]. cbn [World.driver] in Hd. subst dr.
  unfold World.Before, World.getEyesInstance. rewrite Ha.
  crunch_hooks; repeat split; reflexivity.
Qed.

(** X22. A strategy other than 'none', 'clear' and 'always' closes the
    browser after each scenario but never replaces it: the scenario ends with
    its driver, which answered when it began, closed and still the global
    driver, and the next [Before] keeps that driver, which answers no more,
    and creates none. *)
Theorem other_strategy_reuses_the_closed_driver :
  forall (sc : World.scenario) (w : World.world) (d : World.instance),
    strategy <> "none"%string ->
    strategy <> "clear"%string ->
    strategy <> "always"%string ->
    World.driver w = Some d ->
    World.state w (World.id d) = World.Live ->
    let w' := run_scenario sc w in
    World.driver w'
    = Some (World.with_session d (World.steps sc (World.session d))) /\
    In (World.EvClose (World.id d)) (World.events w') /\
    World.created w' = World.created w /\
    fst (Before w') = World.Fulfilled /\
    World.driver (snd (Before w')) = World.driver w' /\
    World.created (snd (Before w')) = World.created w /\
    World.state (snd (Before w')) (World.id d) <> World.Live.
Proof.
  clear existsSync.
  intros sc w d Hn Hc Ha Hd Hlive. cbv zeta.
  assert (Hrun :
            World.driver (run_scenario sc w)
            = Some (World.with_session d (World.steps sc (World.session d))) /\
            In (World.EvClose (World.id d)) (World.events (run_scenario sc w)) /\
            World.created (run_scenario sc w) = World.created w /\
            World.state (run_scenario sc w) (World.id d) <> World.Live).
  { apply String.eqb_neq in Hn, Hc, Ha.
    destruct w as [dr ey cr ev st].
    cbn [World.driver World.state] in Hd, Hlive. subst dr.
    unfold World.run_scenario, World.Before. rewrite Ha. simpl_world.
    unfold World.getEyesInstance, World.After, World.teardownBrowser,
      World.closeBrowser.
    rewrite Hn, Hc.
    crunch_hooks;
      (repeat split; try reflexivity; try congruence;
       repeat rewrite in_app_iff; cbn [In]; tauto). }
  destruct Hrun as (Hdr & Hclose & Hcr & Hst).
  destruct (Before_keeps_the_driver (run_scenario sc w) _ Ha Hdr)
    as (Hf & Hkeep & Hcr' & Hst').
  split; [exact Hdr|]. split; [exact Hclose|]. split; [exact Hcr|].
  split; [exact Hf|]. split; [exact Hkeep|].
  split; [now rewrite Hcr' | now rewrite Hst'].
Qed.

(** X23. Unless the strategy is 'always', a second [Before] changes nothing:
    it settles as the first did and leaves the world as the first left it,
    so at most one driver and one eyes object are created. *)
Theorem Before_is_idempotent_unless_always :
  forall w : World.world,
    strategy <> "always"%string ->
    Before (snd (Before w)) = Before w.
Proof.
  intros w Ha. apply String.eqb_neq in Ha.
  destruct w as [dr ey cr ev st].
  unfold World.Before, World.getDriverInstance, World.new_driver,
    World.getEyesInstance.
  rewrite Ha. rewrite !orb_false_r.
  destruct dr as [d|], ey as [k|]; simpl_world;
    crunch_hooks; try reflexivity; try congruence.
Qed.

(** X24. With screenshots on and a driver in place that answers, the [After]
    hook of a failed scenario takes the screenshot and attaches it before
    any teardown call; the hook of a scenario that did not fail takes
    none. *)
Theorem screenshot_precedes_teardown :
  forall (w : World.world) (d : World.instance),
    World.noScreenshot cfg = false ->
    World.driver w = Some d ->
    World.state w (World.id d) = World.Live ->
    (exists rest,
        World.events (snd (After true w))
        = World.events w
          ++ World.EvTakeScreenshot (World.id d) :: World.EvAttach :: rest /\
        forall n, ~ In (World.EvTakeScreenshot n) rest) /\
    (forall n, In (World.EvTakeScreenshot n) (World.events (snd (After false w)))
               -> In (World.EvTakeScreenshot n) (World.events w)).
Proof.
  clear path_resolve cwd isFileSync existsSync launch.
  intros w d Hshot Hd Hlive.
  destruct w as [dr ey cr ev st]. cbn [World.driver World.state] in Hd, Hlive.
  subst dr.
  unfold World.After, World.teardownBrowser, World.closeBrowser.
  rewrite Hshot. cbn [negb andb]. simpl_world. rewrite ?Hlive. simpl_world.
  split.
  - destruct (String.eqb strategy "none"); [|destruct (String.eqb strategy "clear")].
    + crunch_hooks; rewrite <- ?app_assoc; cbn [app];
        (eexists; split; [reflexivity|]; cbn [In]; intuition discriminate).
    + rewrite helpers_clearCookiesAndStorages_value.
      simpl_world. rewrite ?Hlive.
      crunch_hooks; rewrite <- ?app_assoc; cbn [app];
        (eexists; split; [reflexivity|]; cbn [In]; intuition discriminate).
    + rewrite ?Hlive.
      crunch_hooks; rewrite <- ?app_assoc; cbn [app];
        (eexists; split; [reflexivity|]; cbn [In]; intuition discriminate).
  - intro n.
    destruct (String.eqb strategy "none"); [|destruct (String.eqb strategy "clear")].
    + simpl_world. trivial.
    + rewrite helpers_clearCookiesAndStorages_value.
      simpl_world. rewrite ?Hlive. simpl_world. trivial.
    + rewrite ?Hlive.
      crunch_hooks; repeat rewrite in_app_iff; cbn [In];
        intuition discriminate.
Qed.

(** X25. A run without scenario never creates a driver, so unless the
    strategy is 'always' its [AfterAll] hook meets the [null] driver: it
    rejects with the TypeError and no report is generated. *)
Theorem empty_run_rejects_unless_always :
  strategy <> "always"%string ->
  World.run sel_matches path_resolve cwd isFileSync existsSync launch cfg []
  = (World.Failed (World.NullDriver "close"), World.initial).
Proof.
  intro Ha. apply String.eqb_neq in Ha.
  unfold World.run, World.AfterAll. cbn [World.run_scenarios fold_left].
  rewrite Ha. reflexivity.
Qed.

Ltac in_events := repeat rewrite in_app_iff; cbn [In]; tauto.

Ltac quit_ok :=
  let Hf := fresh "Hf" in
  intro Hf;
  first
    [ in_events
    | match goal with
      | H : (World.browserName cfg =? "firefox")%string = true |- _ =>
          apply String.eqb_eq in H; contradiction
      end
    | match goal with
      | Hq : _ -> In _ _ |- _ => specialize (Hq Hf); in_events
      end ].

Ltac at_driver n :=
  repeat match goal with
         | |- context [Nat.eqb n ?x] =>
             destruct (Nat.eqb_spec n x); try (exfalso; lia); try subst n
         end.

Ltac kept_now :=
  right; split; [tauto|]; eexists; split; reflexivity.

Ltac ended_here :=
  repeat match goal with
         | H : forall _ : nat, _ |- _ => clear H
         | H : forall _ : World.instance, _ |- _ => clear H
         end;
  split; [split; [in_events | quit_ok] | first [reflexivity | assumption]].

Ltac ended_now := left; ended_here.

Lemma run_scenario_tidy (sc : World.scenario) (w : World.world) :
  can_launch = true ->
  World.tidy cfg w ->
  World.tidy cfg (run_scenario sc w) /\
  exists d, World.driver (run_scenario sc w) = Some d.
Proof.
  intros Hcan (Hid & Hnone & Hall & Hkeep).
  destruct (getDriverInstance_launches w Hcan) as [m [Hmff Hm]].
  destruct w as [dr ey cr ev st].
  unfold World.run_scenario, World.Before. rewrite Hm. clear Hm.
  unfold World.getEyesInstance, World.After, World.teardownBrowser,
    World.closeBrowser.
  unfold World.tidy, World.ended, World.closed, World.keeps_browser in *.
  simpl_world.
  cbv beta iota delta [World.driver World.created World.events World.state]
    in Hid, Hnone, Hall, Hkeep.
  destruct (String.eqb_spec strategy "always") as [Ha|Ha];
  destruct (String.eqb_spec strategy "none") as [Hn|Hn];
  destruct (String.eqb_spec strategy "clear") as [Hc|Hc];
  try congruence.
  all: destruct dr as [d0|]; simpl_world.
  all: try first
         [ destruct (Hkeep ltac:(tauto) _ eq_refl) as [Hst0 Hff0]
         | destruct (Hall _ (Hid _ eq_refl)) as [[[Hcl0 Hq0] Hst0] | [Hk0 _]];
           [|exfalso; destruct Hk0; congruence] ].
  all: clear Hkeep.
  all: crunch_hooks; try congruence.
  all: try (rewrite helpers_clearCookiesAndStorages_value;
            crunch_hooks; try congruence).
  all: (split; [|eexists; reflexivity]).
  all: split;
    [ intros d Heq; injection Heq as <-; cbn [World.id];
      first [lia | pose proof (Hid _ eq_refl); lia]
    | split;
      [ discriminate
      | split;
        [ intros n Hlt; simpl_world; at_driver n; simpl_world
        | intros Hk d Heq; injection Heq as <-;
          first [ exfalso; destruct Hk; congruence
                | simpl_world; split; first [reflexivity | assumption] ] ] ] ].
  all: first
    [ solve [ended_now]
    | solve [kept_now]
    | destruct (Hall n ltac:(lia))
        as [[[Hcl Hq] Hst] | [Hk (d & Hd & Hidn)]];
      [ ended_now
      | first [ exfalso; destruct Hk; congruence
              | discriminate Hd
              | injection Hd as <-; subst n; kept_now ] ] ].
Qed.

Lemma tidy_initial : World.tidy cfg World.initial.
Proof.
  split; [|split; [|split]]; cbn; intros; try discriminate; try lia.
Qed.

Lemma run_scenarios_tidy (scs : list World.scenario) :
  can_launch = true ->
  forall w,
    World.tidy cfg w ->
    World.tidy cfg (run_scenarios scs w) /\
    ((exists d, World.driver w = Some d) \/ scs <> [] ->
     exists d, World.driver (run_scenarios scs w) = Some d).
Proof.
  intro Hcan. induction scs as [|sc scs IH]; intros w Hw.
  - split; [exact Hw|]. intros [H | H]; [exact H | contradiction].
  - destruct (run_scenario_tidy sc w Hcan Hw) as [Hw1 Hd1].
    destruct (IH _ Hw1) as [Hw2 Hd2].
    split; [exact Hw2|]. intros _. apply Hd2. now left.
Qed.

(** X26. No driver is left running: in a run whose driver can be launched,
    with at least one scenario (or under 'always'), every driver created
    during the run has received [close], and [quit] as well unless the
    browser is firefox, and its session has ended. [AfterAll] is fulfilled
    under the strategies 'none', 'clear' and 'always'; under any other it
    calls [close] on the driver that [After] closed already, and rejects
    with the driver's NoSuchSessionError, having done nothing else. *)
Theorem every_driver_is_closed_by_the_end :
  forall scs : list World.scenario,
    can_launch = true ->
    scs <> [] \/ strategy = "always"%string ->
    let w := run_scenarios scs World.initial in
    let r := World.run sel_matches path_resolve cwd isFileSync existsSync
               launch cfg scs in
    (World.keeps_browser cfg \/ strategy = "always"%string ->
     fst r = World.Fulfilled) /\
    (~ (World.keeps_browser cfg \/ strategy = "always"%string) ->
     exists d,
       World.driver w = Some d /\
       r = (World.Failed World.NoSuchSession,
            World.emit (World.EvClose (World.id d)) w)) /\
    forall n, (n < World.created (snd r))%nat -> World.ended cfg n (snd r).
Proof.
  intros scs Hcan Hne. cbv zeta. unfold World.run.
  destruct (run_scenarios_tidy scs Hcan World.initial tidy_initial)
    as [(Hid & Hnone & Hall & Hkeep) Hsome].
  destruct (run_scenarios scs World.initial) as [dr ey cr ev st].
  unfold World.ended, World.closed, World.keeps_browser in *.
  cbv beta iota delta [World.driver World.created World.events World.state]
    in Hid, Hnone, Hall, Hkeep, Hsome.
  unfold World.AfterAll, World.closeBrowser.
  destruct (String.eqb_spec strategy "always") as [Ha|Ha].
  - cbn [negb]. clear Hkeep Hsome.
    crunch_hooks;
      (split; [reflexivity|]; split; [tauto|]; intros n Hlt;
       destruct (Hall n Hlt) as [[[Hcl Hq] Hst] | [[Hk|Hk] _]];
       [ended_here | congruence | congruence]).
  - destruct Hne as [Hne | Hne]; [|contradiction].
    destruct Hsome as [d Hd]; [now right|]. subst dr.
    cbn [negb].
    destruct (String.eqb_spec strategy "none") as [Hn|Hn];
    [|destruct (String.eqb_spec strategy "clear") as [Hc|Hc]].
    3: destruct (Hall _ (Hid _ eq_refl)) as [[[Hcl0 Hq0] Hst0] | [Hk0 _]];
       [|exfalso; destruct Hk0; congruence].
    1, 2: destruct (Hkeep ltac:(tauto) _ eq_refl) as [Hst0 Hff0].
    all: clear Hkeep; simpl_world; rewrite Hst0; crunch_hooks;
      try congruence.
    all: (split; [|split]);
      [ first [ reflexivity | intros [[Hk|Hk]|Hk]; congruence ]
      | first [ intro Hneg; exfalso; apply Hneg; tauto
              | intros _; eexists; split; reflexivity ]
      | intros n Hlt; simpl_world; at_driver n; simpl_world ].
    all: first
      [ solve [ended_here]
      | destruct (Hall n Hlt) as [[[Hcl Hq] Hst] | [Hk (d' & Hd' & Hidn)]];
        [ ended_here
        | first [ exfalso; destruct Hk; congruence
                | injection Hd' as <-; congruence ] ] ].
Qed.

Lemma run_scenario_created (sc : World.scenario) (w : World.world) :
  can_launch = true ->
  World.created (run_scenario sc w)
  = (if String.eqb strategy "always" || negb (is_some (World.driver w))
     then S (World.created w) else World.created w) /\
  exists d, World.driver (run_scenario sc w) = Some d.
Proof.
  intros Hcan.
  destruct (getDriverInstance_launches w Hcan) as [m [_ Hm]].
  destruct w as [dr ey cr ev st].
  unfold World.run_scenario, World.Before. rewrite Hm. clear Hm.
  unfold World.getEyesInstance, World.After, World.teardownBrowser,
    World.closeBrowser.
  rewrite (orb_comm (String.eqb strategy "always")).
  destruct dr as [d0|]; simpl_world;
    destruct (String.eqb strategy "always"); simpl_world;
    crunch_hooks;
    try (rewrite helpers_clearCookiesAndStorages_value; crunch_hooks);
    (split; [reflexivity | eexists; reflexivity]).
Qed.

Lemma run_scenarios_created (scs : list World.scenario) :
  can_launch = true ->
  forall w,
    World.created (run_scenarios scs w)
    = (World.created w
       + (if String.eqb strategy "always" then List.length scs
          else if is_some (World.driver w) then 0
               else Nat.min 1 (List.length scs)))%nat.
Proof.
  intro Hcan. induction scs as [|sc scs IH]; intro w.
  - cbn. destruct (String.eqb strategy "always"), (is_some (World.driver w)); lia.
  - cbn [World.run_scenarios fold_left].
    fold (run_scenarios scs (run_scenario sc w)). rewrite IH.
    destruct (run_scenario_created sc w Hcan) as [Hc [d Hs]]. rewrite Hc, Hs.
    cbn [List.length is_some].
    destruct (String.eqb strategy "always"); cbn [orb]; [lia|].
    destruct (is_some (World.driver w)); cbn [negb]; lia.
Qed.

(** X27. How many drivers a run creates: one for each scenario under the
    'always' strategy; under any other strategy one for the whole run,
    however many scenarios it has (and none for an empty run). *)
Theorem drivers_created_in_a_run :
  forall scs : list World.scenario,
    can_launch = true ->
    World.created (run_scenarios scs World.initial)
    = if String.eqb strategy "always" then List.length scs
      else Nat.min 1 (List.length scs).
Proof.
  intros scs Hcan. rewrite (run_scenarios_created scs Hcan). reflexivity.
Qed.

End HookProperties.

(** ** The further properties on the fixture site *)

Lemma waitUntilAttributeEquals_resolves_when_value_appears_witness :
  let r := waitUntilAttributeEquals Fixture.by_tag 200 10
             Fixture.DEFAULT_TIMEOUT "html" "data-busy" "true" (Some 5000)
             (Fixture.session_on Fixture.idle_then_busy) in
  fst r = Resolved true /\
  clock (snd r) = 0 + (Z.of_nat 3 + 1) * 200 /\
  page (snd r) = Fixture.idle_then_busy.
Proof.
  apply (waitUntilAttributeEquals_resolves_when_value_appears Fixture.by_tag
           200 Fixture.DEFAULT_TIMEOUT 10 3 "html" "data-busy" "true"
           (Some 5000) (Fixture.session_on Fixture.idle_then_busy)).
  - discriminate.
  - right. reflexivity.
  - lia.
  - intros i Hi. destruct i as [|[|[|i]]]; [| | |lia];
      eexists _, _; (split; [reflexivity | discriminate]).
  - eexists _, _. split; reflexivity.
Defined.

Lemma waitUntilAttributeExists_resolves_when_attribute_appears_witness :
  let r := waitUntilAttributeExists Fixture.by_tag 200 10
             Fixture.DEFAULT_TIMEOUT "html" "data-busy" None
             (Fixture.session_on Fixture.idle_then_busy) in
  fst r = Resolved true /\
  clock (snd r) = 0 + (Z.of_nat 3 + 1) * 200 /\
  page (snd r) = Fixture.idle_then_busy.
Proof.
  apply (waitUntilAttributeExists_resolves_when_attribute_appears
           Fixture.by_tag 200 Fixture.DEFAULT_TIMEOUT 10 3 "html" "data-busy"
           None (Fixture.session_on Fixture.idle_then_busy)).
  - discriminate.
  - right. reflexivity.
  - lia.
  - intros i Hi. destruct i as [|[|[|i]]]; [| | |lia];
      eexists _, _; (split; reflexivity).
  - eexists _, _, _. split; reflexivity.
Defined.

Lemma waitUntilAttributeDoesNotExists_resolves_when_attribute_goes_witness :
  let r := waitUntilAttributeDoesNotExists Fixture.by_tag 200 10
             Fixture.DEFAULT_TIMEOUT "html" "data-busy" (Some 5000)
             (Fixture.session_on Fixture.busy_then_idle) in
  fst r = Resolved true /\
  clock (snd r) = 0 + (Z.of_nat 3 + 1) * 200 /\
  page (snd r) = Fixture.busy_then_idle.
Proof.
  apply (waitUntilAttributeDoesNotExists_resolves_when_attribute_goes
           Fixture.by_tag 200 Fixture.DEFAULT_TIMEOUT 10 3 "html" "data-busy"
           (Some 5000) (Fixture.session_on Fixture.busy_then_idle)).
  - discriminate.
  - right. reflexivity.
  - lia.
  - intros i Hi. destruct i as [|[|[|i]]]; [| | |lia];
      eexists _, _, _; (split; reflexivity).
  - eexists _, _. split; reflexivity.
Defined.

Lemma waitUntilAttributeEquals_times_out_witness :
  let r := waitUntilAttributeEquals Fixture.by_tag 300 100
             Fixture.DEFAULT_TIMEOUT "html" "data-busy" "false" None
             (Fixture.session Fixture.home) in
  exists elapsed,
    fst r = Rejected (TimeoutError (timeout_text
              (Some ("data-busy" ++ " does not equal " ++ "false" ++ " after "
                     ++ Js.to_string None ++ " milliseconds")%string)
              elapsed)) /\
    Js.or_number None Fixture.DEFAULT_TIMEOUT <= elapsed
      < Js.or_number None Fixture.DEFAULT_TIMEOUT + 300 /\
    clock (snd r) = 0 + elapsed.
Proof.
  apply (waitUntilAttributeEquals_times_out Fixture.by_tag 300
           Fixture.DEFAULT_TIMEOUT 100 "html" "data-busy" "false" None
           (Fixture.session Fixture.home)).
  - reflexivity.
  - discriminate.
  - intro t. eexists _, _. split; [reflexivity | discriminate].
Defined.

Lemma waitUntilAttributeExists_times_out_witness :
  let r := waitUntilAttributeExists Fixture.by_tag 300 100
             Fixture.DEFAULT_TIMEOUT "html" "data-ready" (Some 900)
             (Fixture.session Fixture.home) in
  exists elapsed,
    fst r = Rejected (TimeoutError (timeout_text
              (Some ("data-ready" ++ " does not exists after "
                     ++ Js.to_string (Some 900) ++ " milliseconds")%string)
              elapsed)) /\
    Js.or_number (Some 900) Fixture.DEFAULT_TIMEOUT <= elapsed
      < Js.or_number (Some 900) Fixture.DEFAULT_TIMEOUT + 300 /\
    clock (snd r) = 0 + elapsed.
Proof.
  apply (waitUntilAttributeExists_times_out Fixture.by_tag 300
           Fixture.DEFAULT_TIMEOUT 100 "html" "data-ready" (Some 900)
           (Fixture.session Fixture.home)).
  - reflexivity.
  - discriminate.
  - intro t. eexists _, _. split; reflexivity.
Defined.

Lemma waitUntilAttributeDoesNotExists_times_out_witness :
  let r := waitUntilAttributeDoesNotExists Fixture.by_tag 300 100
             Fixture.DEFAULT_TIMEOUT "html" "data-busy" (Some 0)
             (Fixture.session Fixture.home) in
  exists elapsed,
    fst r = Rejected (TimeoutError (timeout_text
              (Some ("data-busy" ++ " still exists after "
                     ++ Js.to_string (Some 0) ++ " milliseconds")%string)
              elapsed)) /\
    Js.or_number (Some 0) Fixture.DEFAULT_TIMEOUT <= elapsed
      < Js.or_number (Some 0) Fixture.DEFAULT_TIMEOUT + 300 /\
    clock (snd r) = 0 + elapsed.
Proof.
  apply (waitUntilAttributeDoesNotExists_times_out Fixture.by_tag 300
           Fixture.DEFAULT_TIMEOUT 100 "html" "data-busy" (Some 0)
           (Fixture.session Fixture.home)).
  - reflexivity.
  - discriminate.
  - intro t. eexists _, _, _. split; reflexivity.
Defined.

Lemma attribute_waiters_reject_on_missing_element_witness :
  fst (waitUntilAttributeEquals Fixture.by_tag 200 1 Fixture.DEFAULT_TIMEOUT
         "html" "data-busy" "false" (Some 5000)
         (Fixture.session Fixture.blank))
  = Rejected (NoSuchElementError "html") /\
  fst (waitUntilAttributeExists Fixture.by_tag 200 1 Fixture.DEFAULT_TIMEOUT
         "html" "data-busy" (Some 5000) (Fixture.session Fixture.blank))
  = Rejected (NoSuchElementError "html").
Proof.
  exact (attribute_waiters_reject_on_missing_element Fixture.by_tag 200
           Fixture.DEFAULT_TIMEOUT 0 "html" "data-busy" "false" (Some 5000)
           (Fixture.session Fixture.blank) ltac:(discriminate) eq_refl).
Defined.


Lemma getPseudoElementValue_of_first_match_witness :
  fst (getPseudoElementBeforeValue Fixture.by_tag "a"
         (Fixture.session Fixture.home))
  = Resolved (SVString "none") /\
  fst (getPseudoElementAfterValue Fixture.by_tag "a"
         (Fixture.session Fixture.home))
  = Resolved (SVString "none").
Proof.
  exact (getPseudoElementValue_of_first_match Fixture.by_tag "a"
           (Fixture.session Fixture.home) Fixture.link_boots
           [Fixture.link_boots_padded; Fixture.link_gloves] eq_refl).
Defined.

Lemma loadPage_resolves_when_body_appears_witness :
  let r := loadPage Fixture.by_tag Fixture.site_late Fixture.net_error 200 10
             Fixture.DEFAULT_TIMEOUT Fixture.url_late (Some 5)
             (Fixture.session Fixture.blank) in
  fst r = Resolved tt /\
  clock (snd r) = 0 + (Z.of_nat 3 + 1) * 200 /\
  page (snd r) = Fixture.site_late Fixture.url_late.
Proof.
  apply (loadPage_resolves_when_body_appears Fixture.by_tag Fixture.site_late
           Fixture.net_error 200 Fixture.DEFAULT_TIMEOUT 10 3 Fixture.url_late
           (Some 5) (Fixture.session Fixture.blank)).
  - reflexivity.
  - discriminate.
  - right. reflexivity.
  - lia.
  - intros i Hi. destruct i as [|[|[|i]]]; [| | |lia]; reflexivity.
  - discriminate.
Defined.

Lemma loadPage_times_out_witness :
  let r := loadPage Fixture.by_tag Fixture.site Fixture.net_error 200 50
             Fixture.DEFAULT_TIMEOUT Fixture.url_svg (Some 5)
             (Fixture.session Fixture.blank) in
  exists elapsed,
    fst r = Rejected (TimeoutError (timeout_text
              (Some "Waiting for element to be located By(css selector, body)")
              elapsed)) /\
    loadPage_bound Fixture.DEFAULT_TIMEOUT (Some 5) <= elapsed
      < loadPage_bound Fixture.DEFAULT_TIMEOUT (Some 5) + 200 /\
    clock (snd r) = 0 + elapsed.
Proof.
  apply (loadPage_times_out Fixture.by_tag Fixture.site Fixture.net_error 200
           Fixture.DEFAULT_TIMEOUT 50 Fixture.url_svg (Some 5)
           (Fixture.session Fixture.blank)).
  - reflexivity.
  - reflexivity.
  - discriminate.
  - intro t. reflexivity.
Defined.

Lemma missing_driver_file_fails_both_hooks_witness :
  let cfg := Fixture.settings_for "safari" "always" in
  World.Before Fixture.path_resolve Fixture.cwd Fixture.isFileSync
    Fixture.launch cfg World.initial
  = (World.Failed (World.Thrown ("Could not find driver file: "
                                 ++ "/project/safari")%string),
     World.initial) /\
  (fst (World.After Fixture.by_tag cfg true World.initial) = World.Fulfilled
   <-> World.noScreenshot cfg = true /\
       World.browserTeardownStrategy cfg = "none"%string) /\
  snd (World.After Fixture.by_tag cfg true World.initial) = World.initial.
Proof.
  exact (missing_driver_file_fails_both_hooks Fixture.by_tag
           Fixture.path_resolve Fixture.cwd Fixture.isFileSync Fixture.launch
           (Fixture.settings_for "safari" "always") World.initial
           eq_refl eq_refl).
Defined.

Lemma always_gives_each_scenario_a_new_driver_witness :
  let cfg := Fixture.settings_for "chrome" "always" in
  let w' := World.run_scenario Fixture.by_tag Fixture.path_resolve
              Fixture.cwd Fixture.isFileSync Fixture.launch cfg Fixture.visit
              Fixture.running in
  exists m,
    World.driver w'
    = Some {| World.id := 1; World.made_by := m;
              World.session :=
                World.steps Fixture.visit (Fixture.launch 1%nat m) |} /\
    World.created w' = 2%nat /\
    In (World.EvNewDriver 1 m) (World.events w') /\
    In (World.EvClose 1) (World.events w').
Proof.
  exact (always_gives_each_scenario_a_new_driver Fixture.by_tag
           Fixture.path_resolve Fixture.cwd Fixture.isFileSync Fixture.launch
           (Fixture.settings_for "chrome" "always") Fixture.visit
           Fixture.running eq_refl eq_refl).
Defined.

Lemma none_hands_the_session_on_witness :
  let cfg := Fixture.settings_for "chrome" "none" in
  let w' := World.run_scenario Fixture.by_tag Fixture.path_resolve
              Fixture.cwd Fixture.isFileSync Fixture.launch cfg Fixture.visit
              Fixture.running in
  World.driver w'
  = Some (World.with_session Fixture.chrome0
            (World.steps Fixture.visit (World.session Fixture.chrome0))) /\
  World.created w' = 1%nat /\
  (forall n, In (World.EvClose n) (World.events w') ->
             In (World.EvClose n) (World.events Fixture.running)) /\
  (forall n m, In (World.EvNewDriver n m) (World.events w') ->
               In (World.EvNewDriver n m) (World.events Fixture.running)).
Proof.
  exact (none_hands_the_session_on Fixture.by_tag Fixture.path_resolve
           Fixture.cwd Fixture.isFileSync Fixture.launch
           (Fixture.settings_for "chrome" "none") Fixture.visit
           Fixture.running Fixture.chrome0 eq_refl eq_refl).
Defined.

Lemma clear_empties_cookies_and_storages_witness :
  let cfg := Fixture.settings_for "chrome" "clear" in
  let w' := World.run_scenario Fixture.by_tag Fixture.path_resolve
              Fixture.cwd Fixture.isFileSync Fixture.launch cfg Fixture.visit
              Fixture.running in
  exists b',
    World.driver w' = Some (World.with_session Fixture.chrome0 b') /\
    cookies b' = [] /\ localStorage b' = [] /\ sessionStorage b' = [] /\
    page b' = page (World.steps Fixture.visit (World.session Fixture.chrome0)) /\
    clicked b'
    = clicked (World.steps Fixture.visit (World.session Fixture.chrome0)) /\
    World.created w' = 1%nat /\
    (forall n, In (World.EvClose n) (World.events w') ->
               In (World.EvClose n) (World.events Fixture.running)).
Proof.
  exact (clear_empties_cookies_and_storages Fixture.by_tag
           Fixture.path_resolve Fixture.cwd Fixture.isFileSync Fixture.launch
           (Fixture.settings_for "chrome" "clear") Fixture.visit
           Fixture.running Fixture.chrome0 eq_refl eq_refl eq_refl).
Defined.

Lemma other_strategy_reuses_the_closed_driver_witness :
  let cfg := Fixture.settings_for "chrome" "close" in
  let before := World.Before Fixture.path_resolve Fixture.cwd
                  Fixture.isFileSync Fixture.launch cfg in
  let w' := World.run_scenario Fixture.by_tag Fixture.path_resolve
              Fixture.cwd Fixture.isFileSync Fixture.launch cfg Fixture.visit
              Fixture.running in
  World.driver w'
  = Some (World.with_session Fixture.chrome0
            (World.steps Fixture.visit (World.session Fixture.chrome0))) /\
  In (World.EvClose 0) (World.events w') /\
  World.created w' = 1%nat /\
  fst (before w') = World.Fulfilled /\
  World.driver (snd (before w')) = World.driver w' /\
  World.created (snd (before w')) = 1%nat /\
  World.state (snd (before w')) 0%nat <> World.Live.
Proof.
  exact (other_strategy_reuses_the_closed_driver Fixture.by_tag
           Fixture.path_resolve Fixture.cwd Fixture.isFileSync Fixture.launch
           (Fixture.settings_for "chrome" "close") Fixture.visit
           Fixture.running Fixture.chrome0
           ltac:(discriminate) ltac:(discriminate) ltac:(discriminate)
           eq_refl eq_refl).
Defined.

Lemma Before_is_idempotent_unless_always_witness :
  let before := World.Before Fixture.path_resolve Fixture.cwd
                  Fixture.isFileSync Fixture.launch
                  (Fixture.settings_for "firefox" "none") in
  before (snd (before World.initial)) = before World.initial.
Proof.
  exact (Before_is_idempotent_unless_always Fixture.path_resolve Fixture.cwd
           Fixture.isFileSync Fixture.launch
           (Fixture.settings_for "firefox" "none") World.initial
           ltac:(discriminate)).
Defined.

Lemma screenshot_precedes_teardown_witness :
  let cfg := Fixture.settings_for "chrome" "always" in
  (exists rest,
      World.events (snd (World.After Fixture.by_tag cfg true Fixture.running))
      = World.events Fixture.running
        ++ World.EvTakeScreenshot 0 :: World.EvAttach :: rest /\
      forall n, ~ In (World.EvTakeScreenshot n) rest) /\
  (forall n,
      In (World.EvTakeScreenshot n)
         (World.events (snd (World.After Fixture.by_tag cfg false
                               Fixture.running)))
      -> In (World.EvTakeScreenshot n) (World.events Fixture.running)).
Proof.
  exact (screenshot_precedes_teardown Fixture.by_tag
           (Fixture.settings_for "chrome" "always") Fixture.running
           Fixture.chrome0 eq_refl eq_refl eq_refl).
Defined.

Lemma empty_run_rejects_unless_always_witness :
  World.run Fixture.by_tag Fixture.path_resolve Fixture.cwd
    Fixture.isFileSync Fixture.existsSync Fixture.launch
    (Fixture.settings_for "chrome" "none") []
  = (World.Failed (World.NullDriver "close"), World.initial).
Proof.
  exact (empty_run_rejects_unless_always Fixture.by_tag Fixture.path_resolve
           Fixture.cwd Fixture.isFileSync Fixture.existsSync Fixture.launch
           (Fixture.settings_for "chrome" "none") ltac:(discriminate)).
Defined.

Lemma every_driver_is_closed_by_the_end_witness :
  let cfg := Fixture.settings_for "customDriver.js" "clear" in
  let w := World.run_scenarios Fixture.by_tag Fixture.path_resolve
             Fixture.cwd Fixture.isFileSync Fixture.launch cfg
             [Fixture.visit; Fixture.broken] World.initial in
  let r := World.run Fixture.by_tag Fixture.path_resolve Fixture.cwd
             Fixture.isFileSync Fixture.existsSync Fixture.launch cfg
             [Fixture.visit; Fixture.broken] in
  (World.keeps_browser cfg \/
   World.browserTeardownStrategy cfg = "always"%string ->
   fst r = World.Fulfilled) /\
  (~ (World.keeps_browser cfg \/
      World.browserTeardownStrategy cfg = "always"%string) ->
   exists d,
     World.driver w = Some d /\
     r = (World.Failed World.NoSuchSession,
          World.emit (World.EvClose (World.id d)) w)) /\
  forall n, (n < World.created (snd r))%nat -> World.ended cfg n (snd r).
Proof.
  apply (every_driver_is_closed_by_the_end Fixture.by_tag
           Fixture.path_resolve Fixture.cwd Fixture.isFileSync
           Fixture.existsSync Fixture.launch
           (Fixture.settings_for "customDriver.js" "clear")
           [Fixture.visit; Fixture.broken]).
  - reflexivity.
  - left. discriminate.
Defined.

Lemma drivers_created_in_a_run_witness :
  World.created
    (World.run_scenarios Fixture.by_tag Fixture.path_resolve Fixture.cwd
       Fixture.isFileSync Fixture.launch
       (Fixture.settings_for "chrome" "always")
       [Fixture.visit; Fixture.broken; Fixture.visit] World.initial)
  = 3%nat /\
  World.created
    (World.run_scenarios Fixture.by_tag Fixture.path_resolve Fixture.cwd
       Fixture.isFileSync Fixture.launch
       (Fixture.settings_for "chrome" "clear")
       [Fixture.visit; Fixture.broken; Fixture.visit] World.initial)
  = 1%nat.
Proof.
  split.
  - exact (drivers_created_in_a_run Fixture.by_tag Fixture.path_resolve
             Fixture.cwd Fixture.isFileSync Fixture.launch
             (Fixture.settings_for "chrome" "always")
             [Fixture.visit; Fixture.broken; Fixture.visit] eq_refl).
  - exact (drivers_created_in_a_run Fixture.by_tag Fixture.path_resolve
             Fixture.cwd Fixture.isFileSync Fixture.launch
             (Fixture.settings_for "chrome" "clear")
             [Fixture.visit; Fixture.broken; Fixture.visit] eq_refl).
Defined.


(** On the fixture site, [clickHiddenElement("a", "Safety Boots")] follows
    the link: the session ends on the boots page, with the cookie the site
    sets on the way. *)
Example clickHiddenElement_follows_the_link :
  let b' := snd (clickHiddenElement Fixture.by_tag "a" (Some "Safety Boots")
                   (Fixture.session Fixture.home)) in
  clicked b' = [Fixture.link_boots] /\
  page b' 0 = Fixture.boots_page /\
  cookies b' = ("last", "boots") :: cookies (Fixture.session Fixture.home).
Proof. vm_compute. repeat split. Qed.
